(** * pyIBISv2: the IBIS/VDV-300 telegram codec of [ibis/ibis_protocol.py]

  A shallow embedding of the class [IBISMaster]: the VDV-hex codec, the
  special-character substitution, the telegram framer, the telegram
  catalogue and the reply parsers, followed by the properties that the
  specification states about them. *)

From Stdlib Require Import ZArith NArith List Ascii String Lia.
From Stdlib.Strings Require Import Byte.
From Stdlib Require Import DecimalString DecimalFacts DecimalPos DecimalN.
From stdpp Require Import base option list gmap strings.

Local Open Scope Z_scope.

(** ** Python values and built-ins used by the protocol code *)

Module Py.

(** A [str] is a sequence of Unicode code points, a [bytes] object or a
    [bytearray] a sequence of octets. *)
Abbreviation char := N (only parsing).
Abbreviation str := (list N) (only parsing).
Abbreviation bytes := (list byte) (only parsing).

(** The exceptions the modelled code can raise. *)
Inductive exn : Type := IndexError | ValueError | TypeError.

Inductive result (A : Type) : Type :=
| Ok (a : A)
| Raise (e : exn).
Arguments Ok {A} a.
Arguments Raise {A} e.

#[global] Instance result_ret : MRet result := fun _ a => Ok a.
#[global] Instance result_bind : MBind result := fun _ _ f m =>
  match m with
  | Ok a => f a
  | Raise e => Raise e
  end.
#[global] Instance result_fmap : FMap result := fun _ _ f m =>
  match m with
  | Ok a => Ok (f a)
  | Raise e => Raise e
  end.

(** The dynamically typed arguments of the catalogue: an [int] or a [str]. *)
Inductive value : Type :=
| VInt (z : Z)
| VStr (s : str).

#[global] Instance exn_eq_dec : EqDecision exn.
Proof. solve_decision. Defined.
#[global] Instance value_eq_dec : EqDecision value.
Proof. solve_decision. Defined.
#[global] Instance result_eq_dec {A : Type} `{EqDecision A} : EqDecision (result A).
Proof. solve_decision. Defined.

(** A string literal of the source, as code points. *)
Definition lit (s : string) : str :=
  N_of_ascii <$> list_ascii_of_string s.

(** [seq[i]]: a negative index counts from the end; out of range raises
    [IndexError]. *)
Definition getitem {A : Type} (l : list A) (i : Z) : result A :=
  let n := Z.of_nat (length l) in
  let j := if i <? 0 then i + n else i in
  if (j <? 0) || (n <=? j) then Raise IndexError
  else match l !! Z.to_nat j with
       | Some a => Ok a
       | None => Raise IndexError
       end.

(** [s.startswith(sub)] *)
Fixpoint startswith (s sub : str) {struct sub} : bool :=
  match sub, s with
  | [], _ => true
  | _ :: _, [] => false
  | c :: sub', d :: s' => (c =? d)%N && startswith s' sub'
  end.

(** [s.find(sub)]: the lowest position at which [sub] occurs in [s]. *)
Fixpoint find (s sub : str) : option nat :=
  if startswith s sub then Some 0%nat
  else match s with
       | [] => None
       | _ :: s' => S <$> find s' sub
       end.

(** [s.index(sub)]: like [find], but [ValueError] when absent. *)
Definition index (s sub : str) : result Z :=
  match find s sub with
  | Some i => Ok (Z.of_nat i)
  | None => Raise ValueError
  end.

(** [s.replace(old, new)] for patterns of one code point, the only ones
    the source uses. *)
Definition replace (old new : char) (s : str) : str :=
  (fun c => if (c =? old)%N then new else c) <$> s.

(** [s.ljust(width)] and [s.rjust(width, fill)] *)
Definition ljust (s : str) (width : Z) (fill : char) : str :=
  s ++ replicate (Z.to_nat width - length s) fill.
Definition rjust (s : str) (width : Z) (fill : char) : str :=
  replicate (Z.to_nat width - length s) fill ++ s.

(** [str(n)] for a non-negative [int]: its decimal digits.  An interpreter
    may bound such conversions (CPython from 3.11 raises [ValueError], by
    default, for an [int] of more than 4300 digits); that bound is not part
    of this definition, and the statements about formatted numbers that go
    beyond a few digits bound their numbers instead. *)
Definition digits (n : N) : str :=
  lit (NilEmpty.string_of_uint (N.to_uint n)).

(** [str(z)] for an [int]. *)
Definition str_of_int (z : Z) : str :=
  (if z <? 0 then lit "-" else []) ++ digits (Z.abs_N z).

(** [str(v)], which is also what the replacement field [{}] yields. *)
Definition to_str (v : value) : str :=
  match v with
  | VInt z => str_of_int z
  | VStr s => s
  end.

(** The replacement fields that occur in the source's format strings:
    [{}], [{:0Nd}] (sign-aware zero padding of an [int]) and
    [{:F<N}] / [{:F>N}] (fill [F], left or right aligned, width [N]). *)
Inductive field : Type :=
| Plain
| ZeroD (width : Z)
| FillLeft (fill : char) (width : Z)
| FillRight (fill : char) (width : Z).

Definition format_field (f : field) (v : value) : result str :=
  match f, v with
  | Plain, _ => Ok (to_str v)
  | ZeroD w, VInt z =>
      let sign := if z <? 0 then lit "-" else [] in
      let ds := digits (Z.abs_N z) in
      Ok (sign ++ replicate (Z.to_nat w - length sign - length ds) 48%N ++ ds)
  | ZeroD _, VStr _ => Raise ValueError
  | FillLeft c w, _ => Ok (ljust (to_str v) w c)
  | FillRight c w, _ => Ok (rjust (to_str v) w c)
  end.

(** A format string, split into literal text and replacement fields. *)
Inductive piece : Type :=
| Text (s : string)
| Field (f : field).

(** [fmt.format(args...)]: the fields take the arguments in order; a field
    without an argument raises [IndexError], spare arguments are ignored. *)
Fixpoint format (fmt : list piece) (args : list value) : result str :=
  match fmt with
  | [] => Ok []
  | Text s :: fmt' => rest ← format fmt' args; Ok (lit s ++ rest)
  | Field f :: fmt' =>
      match args with
      | [] => Raise IndexError
      | v :: args' =>
          s ← format_field f v;
          rest ← format fmt' args';
          Ok (s ++ rest)
      end
  end.

(** [s.encode('ascii', errors = 'replace')]: a code point above 127
    becomes one question mark. *)
Definition encode_ascii_char (c : char) : byte :=
  if (c <? 128)%N then default "?"%byte (Byte.of_N c) else "?"%byte.
Definition encode_ascii_replace (s : str) : bytes :=
  encode_ascii_char <$> s.

(** [b.decode('latin1')]: every octet is the code point of the same value. *)
Definition decode_latin1 (b : bytes) : str := Byte.to_N <$> b.

(** The value of an octet as an [int], and the conversion that
    [bytearray.append] performs, which raises [ValueError] outside
    [range(0, 256)]. *)
Definition byte_to_Z (b : byte) : Z := Z.of_N (Byte.to_N b).
Definition bytearray_append (a : bytes) (v : Z) : result bytes :=
  if v <? 0 then Raise ValueError
  else match Byte.of_N (Z.to_N v) with
       | Some b => Ok (a ++ [b])
       | None => Raise ValueError
       end.

(** [b[:-2]] *)
Definition drop_last2 {A : Type} (l : list A) : list A :=
  take (length l - 2) l.

(** [math.ceil(n / d)] for a length [n] and [d] one of 2, 4, 16.  The
    quotient [n / d] is a float; a division by a power of two is exact for
    every [n] below [2^53], and above that the rounded quotient is still
    far beyond the values the callers can encode, so the integer ceiling
    gives the same outcome. *)
Definition ceil_div (n d : Z) : Z := - ((- n) / d).

(** The white space that [int] skips around a literal, among the code
    points below 256, which are all that [decode('latin1')] produces: tab,
    line feed, vertical tab, form feed, carriage return and space, and the
    two non-ASCII spaces U+0085 and U+00A0, which the conversion first turns
    into spaces.  The separators U+001C..U+001F are white space for
    [str.isspace] but not here: [int] rejects them. *)
Definition isspace (c : char) : bool :=
  ((9 <=? c) && (c <=? 13) || (c =? 32) || (c =? 133) || (c =? 160))%N.

Fixpoint lstrip (s : str) : str :=
  match s with
  | c :: s' => if isspace c then lstrip s' else s
  | [] => []
  end.
Definition strip (s : str) : str := reverse (lstrip (reverse (lstrip s))).

(** The digits of an [int] literal after its sign: decimal digits, single
    underscores allowed between two digits. *)
Fixpoint int_digits (acc : Z) (after_digit : bool) (s : str) : result Z :=
  match s with
  | [] => if after_digit then Ok acc else Raise ValueError
  | c :: s' =>
      if ((48 <=? c) && (c <=? 57))%N
      then int_digits (acc * 10 + (Z.of_N c - 48)) true s'
      else if (c =? 95)%N && after_digit then int_digits acc false s'
      else Raise ValueError
  end.

(** The default limit on the number of digits of a decimal literal that
    [int] converts (CPython from 3.11). *)
Definition int_max_str_digits : nat := 4300.

Definition is_digit (c : char) : bool := ((48 <=? c) && (c <=? 57))%N.

(** The literal after its sign: more digits than the limit raise
    [ValueError], as does a malformed literal. *)
Definition int_literal (s : str) : result Z :=
  if (int_max_str_digits <? length (List.filter is_digit s))%nat
  then Raise ValueError
  else int_digits 0 false s.

(** [int(s)] for a [str] of code points below 256 (other code points are
    rejected here): surrounding white space is dropped, then an optional
    sign and the digits are read. *)
Definition int (s : str) : result Z :=
  match strip s with
  | 43%N :: s' => int_literal s'
  | 45%N :: s' => Z.opp <$> int_literal s'
  | s' => int_literal s'
  end.

(** [for n in range(stop): acc = body(n, acc)], stopping at the first
    exception. *)
Fixpoint for_seq {S : Type} (ns : list nat) (body : Z -> S -> result S) (acc : S)
  : result S :=
  match ns with
  | [] => Ok acc
  | n :: ns' => acc' ← body (Z.of_nat n) acc; for_seq ns' body acc'
  end.
Definition for_range {S : Type} (stop : nat) (body : Z -> S -> result S) (acc : S)
  : result S :=
  for_seq (seq 0 stop) body acc.

End Py.
Import Py.

(** ** The bus master *)

Module IBISMaster.

(** *** [vdv_hex] *)

Definition vdvhex : str := lit "0123456789:;<=>?".

Definition vdv_hex (v : value) : result value :=
  match v with
  | VInt z => c ← getitem vdvhex z; Ok (VStr [c])
  | VStr s => i ← index vdvhex s; Ok (VInt i)
  end.

(** *** [process_special_characters] *)

Definition process_special_characters (telegram : str) : bytes :=
  let telegram := replace 228%N 123%N telegram in  (* a-umlaut to left brace *)
  let telegram := replace 246%N 124%N telegram in  (* o-umlaut to bar *)
  let telegram := replace 252%N 125%N telegram in  (* u-umlaut to right brace *)
  let telegram := replace 223%N 126%N telegram in  (* sharp s to tilde *)
  let telegram := replace 196%N 91%N telegram in   (* A-umlaut to left bracket *)
  let telegram := replace 214%N 92%N telegram in   (* O-umlaut to backslash *)
  let telegram := replace 220%N 93%N telegram in   (* U-umlaut to right bracket *)
  encode_ascii_replace telegram.

(** *** [wrap_telegram] *)

Definition wrap_telegram (telegram : bytes) : result bytes :=
  telegram ← bytearray_append telegram 0x0D;
  let checksum :=
    fold_left (fun checksum b => Z.lxor checksum (byte_to_Z b)) telegram 0x7F in
  bytearray_append telegram checksum.

(** *** The serial device

    The transport is an external collaborator.  The model keeps what the
    protocol code can observe of it: the telegrams written so far, and the
    octets that arrive before the read timeout expires.  [read(n)] returns
    at most [n] of them, and the empty [bytes] when none came. *)

Record device : Type := Device {
  written : list bytes;
  pending : bytes
}.

(** A method of the master: it runs against the device, and either returns
    or raises. *)
Definition io (A : Type) : Type := device -> result A * device.

#[global] Instance io_ret : MRet io := fun _ a dev => (Ok a, dev).
#[global] Instance io_bind : MBind io := fun _ _ f m dev =>
  match m dev with
  | (Ok a, dev') => f a dev'
  | (Raise e, dev') => (Raise e, dev')
  end.

Definition lift {A : Type} (r : result A) : io A := fun dev => (r, dev).

Definition device_write (telegram : bytes) : io unit := fun dev =>
  (Ok tt, {| written := written dev ++ [telegram]; pending := pending dev |}).

Definition device_read (size : Z) : io bytes := fun dev =>
  (Ok (take (Z.to_nat size) (pending dev)),
   {| written := written dev; pending := drop (Z.to_nat size) (pending dev) |}).

(** *** [send_telegram]

    [debug_telegram] only prints and is left out. *)

Inductive telegram_arg : Type :=
| TStr (s : str)
| TBytes (b : bytes)
| TByteArray (b : bytes).

Definition send_telegram (telegram : telegram_arg) (reply_length : Z)
  : io (option str) :=
  let telegram :=
    match telegram with
    | TStr s => process_special_characters s
    | TBytes b => b
    | TByteArray b => b
    end in
  telegram ← lift (wrap_telegram telegram);
  _ ← device_write telegram;
  if reply_length =? 0 then mret None
  else
    reply ← device_read (reply_length + 2);
    let reply := drop_last2 reply in
    mret (Some (decode_latin1 reply)).

(** *** [_tg] and the simple telegrams *)

Definition _tg (fmt : list piece) (reply_length : Z) (args : list value)
  : io (option str) :=
  s ← lift (format fmt args);
  send_telegram (TStr s) reply_length.

Definition DS001 := _tg [Text "l"; Field (ZeroD 3)] 0.
Definition DS009 := _tg [Text "v"; Field (FillLeft 32%N 16)] 0.
Definition DS009a := _tg [Text "v"; Field (FillLeft 32%N 20)] 0.
Definition DS009b := _tg [Text "v"; Field (FillLeft 32%N 24)] 0.

(** *** Block texts *)

Definition DS003a (text : str) : io (option str) :=
  let num_blocks := ceil_div (Z.of_nat (length text)) 16 in
  h ← lift (vdv_hex (VInt num_blocks));
  s ← lift (format [Text "zA"; Field Plain; Field Plain]
                   [h; VStr (ljust text (num_blocks * 16) 32%N)]);
  send_telegram (TStr s) 0.

Definition DS003c (text : str) : io (option str) :=
  let num_blocks := ceil_div (Z.of_nat (length text)) 4 in
  h ← lift (vdv_hex (VInt num_blocks));
  s ← lift (format [Text "zI"; Field Plain; Field Plain]
                   [h; VStr (ljust text (num_blocks * 4) 32%N)]);
  send_telegram (TStr s) 0.

Definition DS004c (text : str) : io (option str) :=
  let num_blocks := ceil_div (Z.of_nat (length text)) 4 in
  h ← lift (vdv_hex (VInt num_blocks));
  s ← lift (format [Text "eT"; Field Plain; Field Plain]
                   [h; VStr (ljust text (num_blocks * 4) 32%N)]);
  send_telegram (TStr s) 0.

Definition DS021 (address : value) (text : str) : io (option str) :=
  let num_blocks := ceil_div (Z.of_nat (length text)) 16 in
  a ← lift (vdv_hex address);
  h ← lift (vdv_hex (VInt num_blocks));
  s ← lift (format [Text "aA"; Field Plain; Field Plain; Field Plain]
                   [a; h; VStr (ljust text (num_blocks * 16) 32%N)]);
  send_telegram (TStr s) 0.

Definition DS021a (address stop_id stop_text change_text : value)
  : io (option str) :=
  data ← lift (format [Text (String "003"%char EmptyString); Field (ZeroD 2);
                       Text (String "004"%char EmptyString); Field Plain;
                       Text (String "005"%char EmptyString); Field Plain]
                      [stop_id; stop_text; change_text]);
  let num_blocks := Z.of_nat (length data) / 16 in
  let remainder := Z.of_nat (length data) mod 16 in
  a ← lift (vdv_hex address);
  h ← lift (vdv_hex (VInt num_blocks));
  r ← lift (vdv_hex (VInt remainder));
  s ← lift (format [Text "aL"; Field Plain; Field Plain; Field Plain; Field Plain]
                   [a; h; r; VStr data]);
  send_telegram (TStr s) 0.

(** *** Queries and reply parsers

    A decoded reply is a [dict] from field names to values; [None] stands
    for Python's [None]. *)

Definition parse_DS120 (telegram : option str)
  : result (option (gmap string value)) :=
  match telegram with
  | None | Some [] => Ok None
  | Some telegram =>
      status ← (fun c => [c]) <$> getitem telegram 1;
      let statuses : gmap str str :=
        list_to_map [(lit "0", lit "ok");
                     (lit "1", lit "displaying");
                     (lit "2", lit "searching");
                     (lit "3", lit "error");
                     (lit "6", lit "input_implausible")] in
      let reply : gmap string value :=
        {[ "status"%string := VStr (default status (statuses !! status)) ]} in
      Ok (Some reply)
  end.

Definition DS020 (address : value) : io (option (gmap string value)) :=
  a ← lift (vdv_hex address);
  s ← lift (format [Text "a"; Field Plain] [a]);
  reply ← send_telegram (TStr s) 2;
  lift (parse_DS120 reply).

Definition parse_DS1201 (telegram : option str)
  : result (option (gmap string value)) :=
  match telegram with
  | None | Some [] => Ok None
  | Some telegram =>
      let version := drop 2 telegram in
      let reply : gmap string value := {[ "version"%string := VStr version ]} in
      Ok (Some reply)
  end.

Definition DS201 (address : value) : io (option (gmap string value)) :=
  a ← lift (vdv_hex address);
  s ← lift (format [Text "aV"; Field Plain] [a]);
  reply ← send_telegram (TStr s) 8;
  lift (parse_DS1201 reply).

Definition parse_DS160 (telegram : option str)
  : result (option (gmap string value)) :=
  match telegram with
  | None | Some [] => Ok None
  | Some telegram =>
      status ← (fun c => [c]) <$> getitem telegram 2;
      let statuses : gmap str str :=
        list_to_map [(lit "0", lit "ok_no_information");
                     (lit "1", lit "information_read");
                     (lit "2", lit "new_information")] in
      let reply : gmap string value :=
        {[ "status"%string := VStr (default status (statuses !! status)) ]} in
      Ok (Some reply)
  end.

Definition DS060 (direction : value) : io (option (gmap string value)) :=
  s ← lift (format [Text "o"; Field Plain; Text "S"] [direction]);
  reply ← send_telegram (TStr s) 3;
  lift (parse_DS160 reply).

Definition DS601 (direction : value) : io (option (gmap string value)) :=
  s ← lift (format [Text "o"; Field Plain; Text "V"] [direction]);
  reply ← send_telegram (TStr s) 18;
  lift (parse_DS1201 reply).

Definition parse_DS1601 (telegram : option str)
  : result (option (gmap string value)) :=
  match telegram with
  | None | Some [] => Ok None
  | Some telegram =>
      version ← int (drop 2 telegram);
      let reply : gmap string value := {[ "version"%string := VInt version ]} in
      Ok (Some reply)
  end.

Definition parse_DS161 (telegram : option str)
  : result (option (gmap string value)) :=
  match telegram with
  | None | Some [] => Ok None
  | Some telegram =>
      let beacon_id_vdvhex := drop 2 telegram in
      beacon_id ← for_range 8 (fun n beacon_id =>
        char ← getitem beacon_id_vdvhex n;
        v ← vdv_hex (VStr [char]);
        match v with
        | VInt d => Ok (Z.lor beacon_id (Z.shiftl d ((7 - n) * 4)))
        | VStr _ => Raise TypeError
        end) 0;
      let reply : gmap string value := {[ "beacon_id"%string := VInt beacon_id ]} in
      Ok (Some reply)
  end.

Definition DS061 (direction : value) : io (option (gmap string value)) :=
  s ← lift (format [Text "o"; Field Plain; Text "D"] [direction]);
  reply ← send_telegram (TStr s) 10;
  lift (parse_DS161 reply).

Definition DS068 (channel radio_telegram_type delay reporting_point_id hand
                  line_number course_number destination_id train_length : value)
  : io (option (gmap string value)) :=
  v_channel ← lift (vdv_hex channel);
  v_zero ← lift (vdv_hex (VInt 0));
  v_delay ← lift (vdv_hex delay);
  v_six ← lift (vdv_hex (VInt 6));
  v_hand ← lift (vdv_hex hand);
  v_length ← lift (vdv_hex train_length);
  radio_telegram ← lift (format
    [Field Plain; Field Plain; Field (ZeroD 2); Field Plain; Field Plain;
     Field (FillRight 48%N 4); Field Plain; Field (ZeroD 3); Field (ZeroD 2);
     Field (ZeroD 3); Field Plain]
    [v_channel; v_zero; radio_telegram_type; v_delay; v_six;
     reporting_point_id; v_hand; line_number; course_number; destination_id;
     v_length]);
  n ← lift (vdv_hex (VInt (ceil_div (Z.of_nat (length radio_telegram)) 2)));
  s ← lift (format [Text "oFM"; Field Plain; Field Plain]
                   [n; VStr radio_telegram]);
  reply ← send_telegram (TStr s) 3;
  lift (parse_DS160 reply).

(** *** The rest of the simple telegrams *)

Definition DS001neu := _tg [Text "q"; Field (FillRight 48%N 4)] 0.  (* Line number, alphanumeric, 1-4 chars *)
Definition DS001a := _tg [Text "qE"; Field (ZeroD 2)] 0.  (* Line number symbol ID, 1-2 digit *)
Definition DS001b := _tg [Text "lF"; Field (ZeroD 5)] 0.  (* Radio *)
Definition DS001c := _tg [Text "lP"; Field (ZeroD 3)] 0.  (* Line tape reel position ID, 1-3 digit *)
Definition DS001d := _tg [Text "lC"; Field (FillRight 48%N 4)] 0.  (* Line number, alphanumeric, 1-4 chars *)
Definition DS001e := _tg [Text "lC"; Field (FillRight 48%N 8)] 0.  (* Line number, alphanumeric, 1-8 chars *)
Definition DS001f := _tg [Text "lB"; Field (FillRight 48%N 7)] 0.  (* Line number, alphanumeric, 1-7 chars *)
Definition DS002 := _tg [Text "k"; Field (ZeroD 2)] 0.  (* Course number, 1-2 digits *)
Definition DS002a := _tg [Text "k"; Field (ZeroD 5)] 0.  (* Train number, 1-5 digits *)
Definition DS003 := _tg [Text "z"; Field (ZeroD 3)] 0.  (* Destination text ID, 1-3 digit *)
Definition DS003b := _tg [Text "zR"; Field (ZeroD 3)] 0.  (* Destination ID for IMU, 1-3 digits *)
Definition DS003d := _tg [Text "zN"; Field (ZeroD 3)] 0.  (* Route number, 1-3 digits *)
Definition DS003e := _tg [Text "zP"; Field (ZeroD 3)] 0.  (* Destination tape reel position ID, 1-3 digit *)
Definition DS003f := _tg [Text "zN"; Field (ZeroD 6)] 0.  (* Route number, 1-6 digits *)
Definition DS003g := _tg [Text "zL"; Field (ZeroD 4)] 0.  (* Line number, 1-4 digits *)
Definition DS004 := _tg [Text "e"; Field (ZeroD 6)] 0.  (* Ticket validator attributes, 6 digits *)
Definition DS004a := _tg [Text "eA"; Field (ZeroD 4)] 0.  (* Additional ticket validator attributes, 4 digits *)
Definition DS004b := _tg [Text "eH"; Field (ZeroD 7)] 0.  (* Ticket validator stop number, 1-7 digits *)
Definition DS005 := _tg [Text "u"; Field (ZeroD 4)] 0.  (* Time, HHMM *)
Definition DS006 := _tg [Text "d"; Field (ZeroD 5)] 0.  (* Date, DDMMY *)
Definition DS007 := _tg [Text "w"; Field (ZeroD 1)] 0.  (* Train length, 1 digit *)
Definition DS010 := _tg [Text "x"; Field (ZeroD 4)] 0.  (* Line progress display stop ID, 1-4 digits *)
Definition DS010a := _tg [Text "xH"; Field (ZeroD 4)] 0.  (* Line progress display stop ID, 1-4 digits *)
Definition DS010b := _tg [Text "xI"; Field (ZeroD 2)] 0.  (* Line progress display stop ID, 1-2 digits *)
Definition DS010d := _tg [Text "xJ"; Field (ZeroD 4)] 0.  (* Year, YYYY *)
Definition DS010e := _tg [Text "xV"; Field Plain; Field (ZeroD 3)] 0.  (* Delay, +/-, 1-3 digits *)

(** *** Line progress display: next stop and connection information *)

Definition DS010c (stop_id : Z) : io (option str) :=
  let stop_id_high_nibble := Z.shiftr stop_id 4 in
  let stop_id_low_nibble := Z.land stop_id 0x0F in
  h ← lift (vdv_hex (VInt stop_id_high_nibble));
  l ← lift (vdv_hex (VInt stop_id_low_nibble));
  s ← lift (format [Text "xZ"; Field Plain; Field Plain] [h; l]);
  send_telegram (TStr s) 0.

Definition DS010f (stop_id : Z) (change_text : str) : io (option str) :=
  let stop_id_high_nibble := Z.shiftr stop_id 4 in
  let stop_id_low_nibble := Z.land stop_id 0x0F in
  let length_high_nibble := Z.shiftr (Z.of_nat (length change_text)) 4 in
  let length_low_nibble := Z.land (Z.of_nat (length change_text)) 0x0F in
  h ← lift (vdv_hex (VInt stop_id_high_nibble));
  l ← lift (vdv_hex (VInt stop_id_low_nibble));
  lh ← lift (vdv_hex (VInt length_high_nibble));
  ll ← lift (vdv_hex (VInt length_low_nibble));
  s ← lift (format [Text "xU"; Field Plain; Field Plain; Field Plain;
                    Field Plain; Field Plain]
                   [h; l; lh; ll; VStr change_text]);
  send_telegram (TStr s) 0.

End IBISMaster.
Import IBISMaster.

(** ** The specification's own words

    Definitions that follow the specification rather than the source; the
    theorems below compare them with the code. *)

Module Spec.

(** Section 4.2: the fixed substitution table, then ASCII coercion with a
    question mark for whatever is still outside 0..127. *)
Definition sanitize_char (c : char) : byte :=
  if (c =? 228)%N then "{"%byte
  else if (c =? 246)%N then "|"%byte
  else if (c =? 252)%N then "}"%byte
  else if (c =? 223)%N then "~"%byte
  else if (c =? 196)%N then "["%byte
  else if (c =? 214)%N then "\"%byte
  else if (c =? 220)%N then "]"%byte
  else if (c <? 128)%N then default "?"%byte (Byte.of_N c)
  else "?"%byte.

(** Section 4.5: the display status table; an unrecognised code passes
    through as the raw character. *)
Definition display_status (c : char) : str :=
  if (c =? 48)%N then lit "ok"
  else if (c =? 49)%N then lit "displaying"
  else if (c =? 50)%N then lit "searching"
  else if (c =? 51)%N then lit "error"
  else if (c =? 54)%N then lit "input_implausible"
  else [c].

(** Section 4.1: eight nibbles, most significant first, nibble [i] shifted
    to bit position [(7 - i) * 4] and OR-ed together. *)
Definition beacon_of_nibbles (ds : list Z) : Z :=
  foldr Z.lor 0 (imap (fun i d => Z.shiftl d ((7 - Z.of_nat i) * 4)) ds).

(** Section 4.1: the character that carries a nibble. *)
Definition nibble_char (n : Z) : char :=
  nth (Z.to_nat n) (lit "0123456789:;<=>?") 0%N.

(** Section 4.4, block text: the block count [ceil(len(text) / blockSize)],
    and the text padded with trailing spaces to that many blocks, behind the
    character of the block count. *)
Definition num_blocks (blockSize : Z) (text : str) : Z :=
  (Z.of_nat (length text) + blockSize - 1) / blockSize.
Definition block_text (blockSize : Z) (text : str) : str :=
  [nibble_char (num_blocks blockSize text)] ++ text
  ++ replicate (Z.to_nat (num_blocks blockSize text * blockSize) - length text) 32%N.

(** A stop id in two decimal digits. *)
Definition two_digits (n : Z) : str :=
  [Z.to_N (48 + n / 10); Z.to_N (48 + n mod 10)].

(** Section 4.4, line-progress connection text: the composite of stop id,
    stop text and change text with its three control characters. *)
Definition composite (stop_id : Z) (stop_text change_text : str) : str :=
  [3%N] ++ two_digits stop_id ++ [4%N] ++ stop_text ++ [5%N] ++ change_text.

(** Section 4.5 and 7: what a query may do when the device stays silent.
    Either it returns the explicit no-reply value [None], having written
    its one telegram; or it rejects an argument it cannot encode, before
    anything is written or read. *)
Definition no_reply (dev : device)
    (out : result (option (gmap string value)) * device) : Prop :=
  exists telegram : bytes,
    out = (Ok None, {| written := written dev ++ [telegram]; pending := [] |}).
Definition rejected (dev : device)
    (out : result (option (gmap string value)) * device) : Prop :=
  exists e : exn, out = (Raise e, dev).

End Spec.

(** ** Auxiliary notions for the further properties *)

(** The running XOR of [wrap_telegram], from an arbitrary seed. *)
Definition xor_fold (l : list byte) (seed : Z) : Z :=
  fold_left (fun checksum b => Z.lxor checksum (byte_to_Z b)) l seed.

(** The status table of [parse_DS160], with an unknown code passed
    through. *)
Definition locating_status (c : N) : list N :=
  if (c =? 48)%N then lit "ok_no_information"
  else if (c =? 49)%N then lit "information_read"
  else if (c =? 50)%N then lit "new_information"
  else [c].

(** The simple telegrams with one zero-padded decimal field, with their
    command prefix and field width. *)
Definition numeric_telegrams
  : list ((list value -> io (option (list N))) * string * Z) :=
  [(DS001, "l", 3); (DS001a, "qE", 2); (DS001b, "lF", 5); (DS001c, "lP", 3);
   (DS002, "k", 2); (DS002a, "k", 5); (DS003, "z", 3); (DS003b, "zR", 3);
   (DS003d, "zN", 3); (DS003e, "zP", 3); (DS003f, "zN", 6); (DS003g, "zL", 4);
   (DS004, "e", 6); (DS004a, "eA", 4); (DS004b, "eH", 7); (DS005, "u", 4);
   (DS006, "d", 5); (DS007, "w", 1); (DS010, "x", 4); (DS010a, "xH", 4);
   (DS010b, "xI", 2); (DS010d, "xJ", 4)]%string.

(** The simple telegrams with one fixed-width text field: command prefix,
    fill character, whether the text is left-aligned, and field width. *)
Definition text_telegrams
  : list ((list value -> io (option (list N))) * string * N * bool * Z) :=
  [(DS009, "v", 32%N, true, 16); (DS009a, "v", 32%N, true, 20);
   (DS009b, "v", 32%N, true, 24); (DS001neu, "q", 48%N, false, 4);
   (DS001d, "lC", 48%N, false, 4); (DS001e, "lC", 48%N, false, 8);
   (DS001f, "lB", 48%N, false, 7)]%string.

(** The eight nibbles of a beacon id, most significant first. *)
Definition beacon_nibbles (id : Z) : list Z :=
  [Z.land (Z.shiftr id 28) 15; Z.land (Z.shiftr id 24) 15;
   Z.land (Z.shiftr id 20) 15; Z.land (Z.shiftr id 16) 15;
   Z.land (Z.shiftr id 12) 15; Z.land (Z.shiftr id 8) 15;
   Z.land (Z.shiftr id 4) 15; Z.land (Z.shiftr id 0) 15].

(** ** Properties *)

(** *** Python built-ins *)

Lemma getitem_nonneg {A : Type} (l : list A) (i : Z) (a : A) :
  0 <= i -> l !! Z.to_nat i = Some a -> getitem l i = Ok a.
Proof.
  intros Hi Hl. unfold getitem.
  pose proof (lookup_lt_Some _ _ _ Hl) as Hlt.
  destruct (Z.ltb_spec i 0) as [|_]; [lia|].
  destruct (Z.ltb_spec i 0) as [|_]; [lia|].
  destruct (Z.leb_spec (Z.of_nat (length l)) i) as [|_]; [lia|].
  simpl. rewrite Hl. reflexivity.
Qed.

Lemma getitem_negative {A : Type} (l : list A) (i : Z) (a : A) :
  - Z.of_nat (length l) <= i < 0 ->
  l !! Z.to_nat (i + Z.of_nat (length l)) = Some a -> getitem l i = Ok a.
Proof.
  intros Hi Hl. unfold getitem.
  destruct (Z.ltb_spec i 0) as [_|]; [|lia].
  destruct (Z.ltb_spec (i + Z.of_nat (length l)) 0) as [|_]; [lia|].
  destruct (Z.leb_spec (Z.of_nat (length l)) (i + Z.of_nat (length l))) as [|_];
    [lia|].
  simpl. rewrite Hl. reflexivity.
Qed.

Lemma getitem_out_of_range {A : Type} (l : list A) (i : Z) :
  i < - Z.of_nat (length l) \/ Z.of_nat (length l) <= i ->
  getitem l i = Raise IndexError.
Proof.
  intros Hi. unfold getitem.
  destruct (Z.ltb_spec i 0).
  - destruct (Z.ltb_spec (i + Z.of_nat (length l)) 0) as [|]; [reflexivity|lia].
  - destruct (Z.ltb_spec i 0) as [|_]; [lia|].
    destruct (Z.leb_spec (Z.of_nat (length l)) i) as [_|]; [reflexivity|lia].
Qed.

Lemma find_absent (s : str) (c : char) : c ∉ s -> find s [c] = None.
Proof.
  induction s as [|d s IH]; intros Hc; [reflexivity|].
  apply not_elem_of_cons in Hc as [Hne Hc].
  simpl. destruct (N.eqb_spec c d) as [|_]; [congruence|].
  simpl. rewrite (IH Hc). reflexivity.
Qed.

Lemma find_char_bound (s : str) (c : char) (i : nat) :
  find s [c] = Some i -> s !! i = Some c.
Proof.
  revert i. induction s as [|d s IH]; intros i; simpl; [discriminate|].
  destruct (N.eqb_spec c d) as [->|_]; simpl.
  - intros [= <-]. reflexivity.
  - destruct (find s [c]) as [j|] eqn:Hj; simpl; [|discriminate].
    intros [= <-]. simpl. apply IH. reflexivity.
Qed.

Example vdv_hex_5 : vdv_hex (VInt 5) = Ok (VStr (lit "5")).
Proof. reflexivity. Qed.
Example vdv_hex_back : vdv_hex (VStr (lit ";")) = Ok (VInt 11).
Proof. reflexivity. Qed.
Example DS001_12 :
DS001 [VInt 12] (Device [] [])
= (Ok None, Device [["l"; "0"; "1"; "2"; x0d; "-"]%byte] []).
Proof. vm_compute. reflexivity. Qed.
Example wrap_l012 :
wrap_telegram ["l"; "0"; "1"; "2"]%byte = Ok ["l"; "0"; "1"; "2"; x0d; "-"]%byte.
Proof. vm_compute. reflexivity. Qed.

(** *** The framer *)

Lemma lxor_byte_range (a b : Z) :
  0 <= a < 256 -> 0 <= b < 256 -> 0 <= Z.lxor a b < 256.
Proof.
  intros Ha Hb.
  assert (0 <= Z.lxor a b) as Hnn by (apply Z.lxor_nonneg; lia).
  split; [exact Hnn|].
  destruct (Z.eq_dec (Z.lxor a b) 0) as [->|Hne]; [lia|].
  change 256 with (2 ^ 8). apply Z.log2_lt_pow2; [lia|].
  pose proof (Z.log2_lxor a b ltac:(lia) ltac:(lia)) as Hlog.
  assert (Z.log2 a < 8) as Hla.
  { destruct (Z.eq_dec a 0) as [->|]; [reflexivity|].
    apply Z.log2_lt_pow2; lia. }
  assert (Z.log2 b < 8) as Hlb.
  { destruct (Z.eq_dec b 0) as [->|]; [reflexivity|].
    apply Z.log2_lt_pow2; lia. }
  lia.
Qed.

Lemma byte_to_Z_range (b : byte) : 0 <= byte_to_Z b < 256.
Proof. unfold byte_to_Z. pose proof (Byte.to_N_bounded b). lia. Qed.

Lemma checksum_range (l : bytes) (seed : Z) :
  0 <= seed < 256 ->
  0 <= fold_left (fun checksum b => Z.lxor checksum (byte_to_Z b)) l seed < 256.
Proof.
  revert seed. induction l as [|b l IH]; intros seed Hseed; simpl; [exact Hseed|].
  apply IH, lxor_byte_range; [exact Hseed|apply byte_to_Z_range].
Qed.

Lemma bytearray_append_ok (a : bytes) (v : Z) :
  0 <= v < 256 ->
  exists b, bytearray_append a v = Ok (a ++ [b]) /\ byte_to_Z b = v.
Proof.
  intros Hv. unfold bytearray_append.
  destruct (Z.ltb_spec v 0) as [|_]; [lia|].
  destruct (Byte.of_N (Z.to_N v)) as [b|] eqn:Hb.
  - exists b. split; [reflexivity|].
    unfold byte_to_Z. apply Byte.to_of_N in Hb as ->. lia.
  - apply Byte.of_N_None_iff in Hb. lia.
Qed.

Lemma wrap_telegram_ok (B : bytes) :
  exists c : byte,
    wrap_telegram B = Ok (B ++ [x0d] ++ [c]) /\
    byte_to_Z c =
      fold_left (fun checksum b => Z.lxor checksum (byte_to_Z b)) (B ++ [x0d]) 0x7F.
Proof.
  unfold wrap_telegram.
  change (bytearray_append B 13) with (Ok (B ++ [x0d]) : result bytes).
  cbn [mbind result_bind].
  destruct (bytearray_append_ok (B ++ [x0d]) _
              (checksum_range (B ++ [x0d]) 0x7F ltac:(lia))) as (c & Hc & Hv).
  exists c. rewrite Hc, <- app_assoc. split; [reflexivity|exact Hv].
Qed.

(** C1. For every byte sequence [B], [wrap_telegram] returns
    [B ++ [0x0D] ++ [c]], where [c] is [0x7F] XOR-folded over the octets of
    [B] and then the terminator [0x0D]; the result is two octets longer than
    [B], its second-to-last octet is [0x0D] and the checksum is its last. *)
Theorem wrap_telegram_frame (B : bytes) :
  exists (c : byte) (framed : bytes),
    wrap_telegram B = Ok framed /\
    framed = B ++ [x0d] ++ [c] /\
    byte_to_Z c =
      fold_left (fun checksum b => Z.lxor checksum (byte_to_Z b)) (B ++ [x0d]) 0x7F /\
    length framed = (length B + 2)%nat /\
    framed !! length B = Some x0d /\
    last framed = Some c.
Proof.
  destruct (wrap_telegram_ok B) as (c & Hw & Hc).
  exists c, (B ++ [x0d] ++ [c]).
  split; [exact Hw|]. split; [reflexivity|]. split; [exact Hc|].
  split; [|split].
  - rewrite !length_app. simpl. lia.
  - rewrite lookup_app_r by lia. rewrite Nat.sub_diag. reflexivity.
  - rewrite app_assoc. apply last_snoc.
Qed.

(** *** The VDV-hex codec *)

Lemma vdv_hex_decode_absent (c : char) :
  c ∉ vdvhex -> vdv_hex (VStr [c]) = Raise ValueError.
Proof.
  intros Hc. unfold vdv_hex, index. rewrite (find_absent _ _ Hc). reflexivity.
Qed.

(** C2. For every [n] in 0..15, [vdv_hex] maps [n] to a character of the
    alphabet ["0123456789:;<=>?"] and maps that character back to [n];
    decoding a character outside the alphabet fails. *)
Theorem vdv_hex_roundtrip :
  (forall n : Z, 0 <= n <= 15 ->
     exists c : char,
       c ∈ vdvhex /\
       vdv_hex (VInt n) = Ok (VStr [c]) /\
       vdv_hex (VStr [c]) = Ok (VInt n)) /\
  (forall c : char, c ∉ vdvhex -> vdv_hex (VStr [c]) = Raise ValueError).
Proof.
  split; [|exact vdv_hex_decode_absent].
  intros n Hn.
  assert (exists k : nat, (k < 16)%nat /\ n = Z.of_nat k) as (k & Hk & ->).
  { exists (Z.to_nat n). lia. }
  do 16 (destruct k as [|k];
         [refine (ex_intro _ _ (conj _ (conj eq_refl eq_refl)));
          vm_compute; repeat constructor|]).
  lia.
Qed.

Lemma vdv_hex_roundtrip_witness :
  (exists c : char,
     c ∈ vdvhex /\
     vdv_hex (VInt 11) = Ok (VStr [c]) /\
     vdv_hex (VStr [c]) = Ok (VInt 11)) /\
  vdv_hex (VStr (lit "A")) = Raise ValueError.
Proof.
  split.
  - apply (proj1 vdv_hex_roundtrip 11). lia.
  - apply (proj2 vdv_hex_roundtrip 65%N).
    apply (bool_decide_unpack _). vm_compute. exact I.
Defined.

Lemma vdvhex_length : length vdvhex = 16%nat.
Proof. reflexivity. Qed.

(** C10. For every [v] with [-16 <= v <= -1], [vdv_hex] does not fail: by
    negative indexing it returns the alphabet character at position
    [v + 16], the same as for [v + 16]; so [-1] and [15] both give the
    question mark.  Encoding an [int] fails, with [IndexError], exactly for
    [v >= 16] and [v <= -17]. *)
Theorem vdv_hex_negative_index :
  (forall v : Z, -16 <= v <= -1 ->
     exists c : char,
       vdvhex !! Z.to_nat (v + 16) = Some c /\
       vdv_hex (VInt v) = Ok (VStr [c]) /\
       vdv_hex (VInt (v + 16)) = Ok (VStr [c])) /\
  vdv_hex (VInt (-1)) = Ok (VStr (lit "?")) /\
  vdv_hex (VInt 15) = Ok (VStr (lit "?")) /\
  (forall v : Z, vdv_hex (VInt v) = Raise IndexError <-> 16 <= v \/ v <= -17) /\
  (forall (v : Z) (e : exn), vdv_hex (VInt v) = Raise e -> e = IndexError).
Proof.
  assert (forall v : Z, -16 <= v <= 15 ->
            exists c, vdv_hex (VInt v) = Ok (VStr [c])) as Hok.
  { intros v Hv.
    destruct (Z.ltb_spec v 0).
    - destruct (lookup_lt_is_Some_2 vdvhex (Z.to_nat (v + 16))) as [c Hc];
        [rewrite vdvhex_length; lia|].
      exists c. unfold vdv_hex.
      rewrite (getitem_negative vdvhex v c); [reflexivity| |].
      + rewrite vdvhex_length. lia.
      + rewrite vdvhex_length. exact Hc.
    - destruct (lookup_lt_is_Some_2 vdvhex (Z.to_nat v)) as [c Hc];
        [rewrite vdvhex_length; lia|].
      exists c. unfold vdv_hex.
      rewrite (getitem_nonneg vdvhex v c); [reflexivity|lia|exact Hc]. }
  assert (forall v : Z, 16 <= v \/ v <= -17 ->
            vdv_hex (VInt v) = Raise IndexError) as Hfail.
  { intros v Hv. unfold vdv_hex.
    rewrite getitem_out_of_range; [reflexivity|].
    rewrite vdvhex_length. lia. }
  split; [|split; [reflexivity|split; [reflexivity|split]]].
  - intros v Hv.
    destruct (lookup_lt_is_Some_2 vdvhex (Z.to_nat (v + 16))) as [c Hc];
      [rewrite vdvhex_length; lia|].
    exists c. split; [exact Hc|]. unfold vdv_hex.
    rewrite (getitem_negative vdvhex v c), (getitem_nonneg vdvhex (v + 16) c);
      [split; reflexivity|lia|exact Hc| |].
    + rewrite vdvhex_length. lia.
    + rewrite vdvhex_length. exact Hc.
  - intros v. split; [|apply Hfail].
    intros Hv.
    destruct (Z_le_gt_dec 16 v); [lia|].
    destruct (Z_le_gt_dec v (-17)); [lia|].
    destruct (Hok v ltac:(lia)) as [c Hc]. congruence.
  - intros v e Hv.
    destruct (Z_le_gt_dec 16 v);
      [rewrite Hfail in Hv by lia; congruence|].
    destruct (Z_le_gt_dec v (-17));
      [rewrite Hfail in Hv by lia; congruence|].
    destruct (Hok v ltac:(lia)) as [c Hc]. congruence.
Qed.

Lemma vdv_hex_negative_index_witness :
  exists c : char,
    vdvhex !! Z.to_nat (-3 + 16) = Some c /\
    vdv_hex (VInt (-3)) = Ok (VStr [c]) /\
    vdv_hex (VInt (-3 + 16)) = Ok (VStr [c]).
Proof. apply (proj1 vdv_hex_negative_index (-3)). lia. Defined.

(** *** Special characters *)

Lemma encode_ascii_char_ascii (c : char) :
  (c < 128)%N -> Byte.to_N (encode_ascii_char c) = c.
Proof.
  intros Hc. unfold encode_ascii_char.
  destruct (N.ltb_spec c 128) as [_|]; [|lia].
  destruct (Byte.of_N c) as [b|] eqn:Hb; simpl.
  - apply Byte.to_of_N. exact Hb.
  - apply Byte.of_N_None_iff in Hb. lia.
Qed.

Lemma sanitize_char_ascii (c : char) :
  (c < 128)%N -> Byte.to_N (Spec.sanitize_char c) = c.
Proof.
  intros Hc. unfold Spec.sanitize_char.
  repeat match goal with
         | |- context [N.eqb c ?k] =>
             destruct (N.eqb_spec c k) as [->|_]; [lia|]
         end.
  apply encode_ascii_char_ascii, Hc.
Qed.

Lemma sanitize_char_range (c : char) : (Byte.to_N (Spec.sanitize_char c) < 128)%N.
Proof.
  unfold Spec.sanitize_char.
  repeat match goal with
         | |- context [N.eqb c ?k] =>
             destruct (N.eqb_spec c k) as [->|_]; [vm_compute; reflexivity|]
         end.
  destruct (N.ltb_spec c 128) as [Hc|_]; [|vm_compute; reflexivity].
  destruct (Byte.of_N c) as [b|] eqn:Hb; simpl; [|vm_compute; reflexivity].
  apply Byte.to_of_N in Hb as ->. exact Hc.
Qed.

Lemma sanitize_char_ascii_byte (b : byte) :
  (Byte.to_N b < 128)%N -> Spec.sanitize_char (Byte.to_N b) = b.
Proof.
  intros Hb. unfold Spec.sanitize_char.
  repeat match goal with
         | |- context [N.eqb ?c ?k] =>
             destruct (N.eqb_spec c k) as [Heq|_]; [lia|]
         end.
  destruct (N.ltb_spec (Byte.to_N b) 128) as [_|]; [|lia].
  rewrite Byte.of_to_N. reflexivity.
Qed.

Lemma process_special_characters_pointwise (s : str) :
  process_special_characters s = Spec.sanitize_char <$> s.
Proof.
  unfold process_special_characters, encode_ascii_replace, replace.
  rewrite <- !list_fmap_compose. apply list_fmap_ext. intros _ c _.
  unfold compose, Spec.sanitize_char.
  repeat match goal with
         | |- context [N.eqb c ?k] =>
             destruct (N.eqb_spec c k) as [->|_]; [vm_compute; reflexivity|]
         end.
  reflexivity.
Qed.

Lemma process_special_characters_ascii (s : str) :
  Forall (fun c => (c < 128)%N) s ->
  decode_latin1 (process_special_characters s) = s.
Proof.
  intros Hs. rewrite process_special_characters_pointwise.
  unfold decode_latin1. rewrite <- list_fmap_compose.
  induction Hs as [|c s Hc _ IH]; [reflexivity|].
  rewrite fmap_cons. f_equal; [apply sanitize_char_ascii, Hc|exact IH].
Qed.

(** C6. [process_special_characters] substitutes exactly the seven German
    letters of the table, then replaces every code point still outside
    0..127 by a question mark; ASCII input comes out unchanged, and
    sanitizing the sanitized text again changes nothing.  The bytes for
    "Muenchen" written with u-umlaut are those of "M}nchen". *)
Theorem process_special_characters_spec :
  (forall s : str, process_special_characters s = Spec.sanitize_char <$> s) /\
  process_special_characters [228; 246; 252; 223; 196; 214; 220]%N
    = ["{"; "|"; "}"; "~"; "["; "\"; "]"]%byte /\
  (forall s : str,
     Forall (fun c => (c < 128)%N) s ->
     decode_latin1 (process_special_characters s) = s) /\
  (forall s : str,
     process_special_characters (decode_latin1 (process_special_characters s))
     = process_special_characters s) /\
  process_special_characters [77; 252; 110; 99; 104; 101; 110]%N
    = ["M"; "}"; "n"; "c"; "h"; "e"; "n"]%byte.
Proof.
  split; [exact process_special_characters_pointwise|].
  split; [reflexivity|].
  split; [exact process_special_characters_ascii|].
  split; [|reflexivity].
  intros s. rewrite !process_special_characters_pointwise.
  unfold decode_latin1. rewrite <- !list_fmap_compose.
  apply list_fmap_ext. intros _ c _. unfold compose.
  apply sanitize_char_ascii_byte, sanitize_char_range.
Qed.

Lemma process_special_characters_spec_witness :
  decode_latin1 (process_special_characters (lit "Stop")) = lit "Stop".
Proof.
  apply (proj1 (proj2 (proj2 process_special_characters_spec)) (lit "Stop")).
  repeat constructor.
Defined.

(** *** Reply parsers *)

Lemma display_statuses_lookup (c : char) :
  let statuses : gmap (list N) (list N) :=
    list_to_map [(lit "0", lit "ok");
                 (lit "1", lit "displaying");
                 (lit "2", lit "searching");
                 (lit "3", lit "error");
                 (lit "6", lit "input_implausible")] in
  default [c] (statuses !! [c]) = Spec.display_status c.
Proof.
  intros statuses. unfold Spec.display_status, statuses.
  repeat match goal with
         | |- context [N.eqb c ?k] =>
             destruct (N.eqb_spec c k) as [->|?]; [vm_compute; reflexivity|]
         end.
  change (lit "0") with [48%N]. change (lit "1") with [49%N].
  change (lit "2") with [50%N]. change (lit "3") with [51%N].
  change (lit "6") with [54%N].
  cbn [list_to_map foldr fst snd uncurry].
  rewrite !lookup_insert_ne by congruence.
  rewrite lookup_empty. reflexivity.
Qed.

(** C8. For every display-status reply, [parse_DS120] maps the status
    character (the second of the reply) through the table
    0: ok, 1: displaying, 2: searching, 3: error, 6: input_implausible, and
    a character outside the table passes through as the raw character
    instead of failing; the status character 2 decodes to
    [{status: searching}]. *)
Theorem parse_DS120_status (telegram : str) (c : char) :
  telegram !! 1%nat = Some c ->
  parse_DS120 (Some telegram)
    = Ok (Some {[ "status"%string := VStr (Spec.display_status c) ]}) /\
  (c ∉ [48; 49; 50; 51; 54]%N -> Spec.display_status c = [c]) /\
  parse_DS120 (Some (lit "a2"))
    = Ok (Some {[ "status"%string := VStr (lit "searching") ]}).
Proof.
  intros Hc. split; [|split; [|reflexivity]].
  - destruct telegram as [|a telegram]; [discriminate|].
    unfold parse_DS120.
    rewrite (getitem_nonneg (a :: telegram) 1 c) by (lia || exact Hc).
    cbn [fmap result_fmap mbind result_bind].
    rewrite display_statuses_lookup. reflexivity.
  - intros Hout. unfold Spec.display_status.
    repeat match goal with
           | |- context [N.eqb c ?k] =>
               destruct (N.eqb_spec c k) as [->|?];
                 [exfalso; apply Hout; repeat constructor|]
           end.
    reflexivity.
Qed.

Lemma parse_DS120_status_witness :
  parse_DS120 (Some (lit "a9"))
    = Ok (Some {[ "status"%string := VStr (Spec.display_status 57%N) ]}) /\
  (57%N ∉ [48; 49; 50; 51; 54]%N -> Spec.display_status 57%N = [57%N]) /\
  parse_DS120 (Some (lit "a2"))
    = Ok (Some {[ "status"%string := VStr (lit "searching") ]}).
Proof. apply (parse_DS120_status (lit "a9") 57%N). reflexivity. Defined.

Lemma vdv_hex_decode_range (c : char) (d : Z) :
  vdv_hex (VStr [c]) = Ok (VInt d) -> 0 <= d < 16.
Proof.
  unfold vdv_hex, index.
  destruct (find vdvhex [c]) as [i|] eqn:Hi; [|discriminate].
  intros [= <-].
  apply find_char_bound, lookup_lt_Some in Hi.
  rewrite vdvhex_length in Hi. lia.
Qed.

Lemma lor_range (n a b : Z) :
  0 <= n -> 0 <= a < 2 ^ n -> 0 <= b < 2 ^ n -> 0 <= Z.lor a b < 2 ^ n.
Proof.
  intros Hn Ha Hb.
  assert (0 <= Z.lor a b) as Hnn by (apply Z.lor_nonneg; lia).
  split; [exact Hnn|].
  destruct (Z.eq_dec (Z.lor a b) 0) as [->|Hne]; [lia|].
  apply Z.log2_lt_pow2; [lia|].
  pose proof (Z.log2_lor a b ltac:(lia) ltac:(lia)) as Hlog.
  assert (forall x, 0 <= x < 2 ^ n -> x <> 0 -> Z.log2 x < n) as Hlt.
  { intros x Hx Hx0. apply Z.log2_lt_pow2; lia. }
  destruct (Z.eq_dec a 0) as [->|Ha0]; destruct (Z.eq_dec b 0) as [->|Hb0].
  - rewrite Z.lor_0_l in Hne. congruence.
  - rewrite Z.lor_0_l in *. apply Hlt; lia.
  - rewrite Z.lor_0_r in *. apply Hlt; lia.
  - specialize (Hlt a Ha Ha0) as Hla. specialize (Hlt b Hb Hb0) as Hlb. lia.
Qed.

Lemma shifted_nibble_range (d k : Z) :
  0 <= d < 16 -> 0 <= k <= 28 -> 0 <= Z.shiftl d k < 2 ^ 32.
Proof.
  intros Hd Hk. rewrite Z.shiftl_mul_pow2 by lia.
  assert (0 < 2 ^ k) by (apply Z.pow_pos_nonneg; lia).
  assert (2 ^ k <= 2 ^ 28) by (apply Z.pow_le_mono_r; lia).
  change (2 ^ 32) with (16 * 2 ^ 28). nia.
Qed.

(** C9. For every locating-device data reply that carries eight VDV-hex
    characters after its two leading characters, [parse_DS161] decodes the
    eight characters, most significant first, and OR-s nibble [i], shifted to
    bit position [(7 - i) * 4], into the beacon id, which fits 32 bits. *)
Theorem parse_DS161_beacon_id (a b : char) (cs : list N) (ds : list Z) (rest : list N) :
  length cs = 8%nat ->
  Forall2 (fun c d => vdv_hex (VStr [c]) = Ok (VInt d)) cs ds ->
  parse_DS161 (Some (a :: b :: cs ++ rest))
    = Ok (Some {[ "beacon_id"%string := VInt (Spec.beacon_of_nibbles ds) ]}) /\
  0 <= Spec.beacon_of_nibbles ds < 2 ^ 32.
Proof.
  intros Hlen Hcs.
  do 8 (destruct cs as [|? cs]; [discriminate Hlen|]).
  destruct cs; [clear Hlen|discriminate Hlen].
  do 8 (apply Forall2_cons_inv_l in Hcs as (? & ? & ? & Hcs & ->)).
  apply Forall2_nil_inv_l in Hcs as ->.
  repeat match goal with
         | H : vdv_hex (VStr [_]) = Ok (VInt ?d) |- _ =>
             pose proof (vdv_hex_decode_range _ _ H); revert H
         end.
  intros.
  unfold Spec.beacon_of_nibbles. cbn [imap foldr compose].
  split.
  - unfold parse_DS161, for_range.
    cbn [drop seq for_seq app].
    repeat match goal with
           | |- context [getitem ?l (Z.of_nat ?n)] =>
               rewrite (getitem_nonneg l (Z.of_nat n) _ ltac:(lia) eq_refl)
           | H : vdv_hex ?v = _ |- context [vdv_hex ?v] => rewrite H; clear H
           | _ => progress cbn [mbind result_bind]
           end.
    do 3 f_equal. f_equal.
    cbn. rewrite Z.lor_0_r. rewrite !Z.lor_assoc. reflexivity.
  - cbn.
    repeat (apply (lor_range 32); [lia| |]);
      solve [apply shifted_nibble_range; lia | lia].
Qed.

Lemma parse_DS161_beacon_id_witness :
  parse_DS161 (Some (lit "oD" ++ lit "0000001?" ++ []))
    = Ok (Some {[ "beacon_id"%string :=
                    VInt (Spec.beacon_of_nibbles [0; 0; 0; 0; 0; 0; 1; 15]) ]}) /\
  0 <= Spec.beacon_of_nibbles [0; 0; 0; 0; 0; 0; 1; 15] < 2 ^ 32.
Proof.
  apply (parse_DS161_beacon_id 111%N 68%N (lit "0000001?")
           [0; 0; 0; 0; 0; 0; 1; 15] []).
  - reflexivity.
  - repeat constructor.
Defined.

(** *** Sending *)

Lemma io_bind_lift {A B : Type} (r : result A) (f : A -> io B) (dev : device) :
  (lift r ≫= f) dev
  = match r with
    | Ok a => f a dev
    | Raise e => (Raise e, dev)
    end.
Proof. destruct r; reflexivity. Qed.

(** Run the binds of a method whose left side is known. *)
Ltac run_io :=
  repeat first
    [ rewrite io_bind_lift
    | progress cbn [mbind mret result_bind result_ret
                    format format_field to_str] ].

Lemma send_telegram_no_reply (body : list N) (dev : device) :
  exists c : byte,
    send_telegram (TStr body) 0 dev
    = (Ok None,
       {| written := written dev ++ [process_special_characters body ++ [x0d; c]];
          pending := pending dev |}).
Proof.
  unfold send_telegram.
  destruct (wrap_telegram_ok (process_special_characters body)) as (c & Hw & _).
  exists c. rewrite io_bind_lift, Hw. reflexivity.
Qed.

(** *** Block texts *)

Lemma ceil_div_spec (n d : Z) :
  0 < d -> d * (ceil_div n d - 1) < n <= d * ceil_div n d.
Proof.
  intros Hd. unfold ceil_div.
  pose proof (Z.div_mod (- n) d ltac:(lia)).
  pose proof (Z.mod_pos_bound (- n) d Hd).
  nia.
Qed.

Lemma vdv_hex_nibble (n : Z) :
  0 <= n <= 15 ->
  exists h : N, vdvhex !! Z.to_nat n = Some h /\ vdv_hex (VInt n) = Ok (VStr [h]).
Proof.
  intros Hn.
  destruct (lookup_lt_is_Some_2 vdvhex (Z.to_nat n)) as [h Hh];
    [rewrite vdvhex_length; lia|].
  exists h. split; [exact Hh|].
  unfold vdv_hex. rewrite (getitem_nonneg vdvhex n h); [reflexivity|lia|exact Hh].
Qed.

Lemma ljust_length (text : list N) (n d : Z) :
  Z.of_nat (length text) <= d * n ->
  Z.of_nat (length (ljust text (n * d) 32%N)) = n * d.
Proof.
  intros Hle. unfold ljust. rewrite length_app, length_replicate. lia.
Qed.

Lemma ceil_div_num_blocks (blockSize : Z) (text : list N) :
  0 < blockSize ->
  ceil_div (Z.of_nat (length text)) blockSize = Spec.num_blocks blockSize text.
Proof.
  intros Hd. unfold Spec.num_blocks.
  pose proof (ceil_div_spec (Z.of_nat (length text)) blockSize Hd).
  pose proof (Z.div_mod (Z.of_nat (length text) + blockSize - 1) blockSize
                ltac:(lia)).
  pose proof (Z.mod_pos_bound (Z.of_nat (length text) + blockSize - 1)
                blockSize Hd).
  nia.
Qed.

Lemma num_blocks_nonneg (blockSize : Z) (text : list N) :
  0 < blockSize -> 0 <= Spec.num_blocks blockSize text.
Proof.
  intros Hd. unfold Spec.num_blocks. apply Z.div_pos; lia.
Qed.

Lemma block_text_fields (blockSize : Z) (text : list N) :
  0 < blockSize ->
  Spec.num_blocks blockSize text <= 15 ->
  exists h : N,
    vdv_hex (VInt (ceil_div (Z.of_nat (length text)) blockSize)) = Ok (VStr [h]) /\
    [h] ++ ljust text (ceil_div (Z.of_nat (length text)) blockSize * blockSize) 32%N
    = Spec.block_text blockSize text.
Proof.
  intros Hd Hle. rewrite (ceil_div_num_blocks _ _ Hd).
  pose proof (num_blocks_nonneg blockSize text Hd) as Hnn.
  destruct (vdv_hex_nibble (Spec.num_blocks blockSize text) ltac:(lia))
    as (h & Hh & Hv).
  exists h. split; [exact Hv|].
  unfold Spec.block_text, Spec.nibble_char, ljust.
  fold vdvhex. rewrite nth_lookup, Hh. reflexivity.
Qed.

(** C3, as amended.  For every text of at most 15 blocks, the block-text
    encoders [DS003a] (block size 16), [DS003c] and [DS004c] (block size 4),
    and [DS021] (block size 16) for every address that [vdv_hex] encodes,
    send, after their command prefix (and the encoded address, for [DS021]),
    the character of the block count [ceil(len(text) / S)] and then the text
    padded with trailing spaces to exactly that many blocks; the destination
    text "Stop" gives the body "zA1Stop" and 12 spaces.  Block sizes 20 and 24
    have no block-text encoder: the next-stop telegrams [DS009], [DS009a] and
    [DS009b] send "v" and then the text padded with trailing spaces to 16, 20
    or 24 characters, a longer text as it is, and no block count. *)
Theorem block_text_encoding (text : list N) (dev : device) :
  (Spec.num_blocks 16 text <= 15 ->
     DS003a text dev
       = send_telegram (TStr (lit "zA" ++ Spec.block_text 16 text)) 0 dev /\
     forall address a : value,
       vdv_hex address = Ok a ->
       DS021 address text dev
       = send_telegram (TStr (lit "aA" ++ to_str a ++ Spec.block_text 16 text)) 0 dev) /\
  (Spec.num_blocks 4 text <= 15 ->
     DS003c text dev
       = send_telegram (TStr (lit "zI" ++ Spec.block_text 4 text)) 0 dev /\
     DS004c text dev
       = send_telegram (TStr (lit "eT" ++ Spec.block_text 4 text)) 0 dev) /\
  (forall S : Z, 0 < S ->
     S * (Spec.num_blocks S text - 1) < Z.of_nat (length text)
       <= S * Spec.num_blocks S text /\
     Z.of_nat (length (Spec.block_text S text)) = 1 + Spec.num_blocks S text * S) /\
  DS003a (lit "Stop") dev
    = send_telegram (TStr (lit "zA1Stop" ++ replicate 12 32%N)) 0 dev /\
  (DS009 [VStr text] dev
     = send_telegram
         (TStr (lit "v" ++ text ++ replicate (16 - length text) 32%N)) 0 dev /\
   DS009a [VStr text] dev
     = send_telegram
         (TStr (lit "v" ++ text ++ replicate (20 - length text) 32%N)) 0 dev /\
   DS009b [VStr text] dev
     = send_telegram
         (TStr (lit "v" ++ text ++ replicate (24 - length text) 32%N)) 0 dev).
Proof.
  split; [|split; [|split; [|split; [reflexivity|]]]].
  - intros Hle.
    destruct (block_text_fields 16 text ltac:(lia) Hle) as (h & Hv & Hb).
    split.
    + unfold DS003a. rewrite Hv. run_io.
      rewrite app_nil_r, Hb. reflexivity.
    + intros address a Ha. unfold DS021. rewrite Ha, Hv. run_io.
      rewrite app_nil_r, Hb. reflexivity.
  - intros Hle.
    destruct (block_text_fields 4 text ltac:(lia) Hle) as (h & Hv & Hb).
    split.
    + unfold DS003c. rewrite Hv. run_io.
      rewrite app_nil_r, Hb. reflexivity.
    + unfold DS004c. rewrite Hv. run_io.
      rewrite app_nil_r, Hb. reflexivity.
  - intros S HS.
    pose proof (ceil_div_spec (Z.of_nat (length text)) S HS) as Hc.
    rewrite (ceil_div_num_blocks _ _ HS) in Hc.
    split; [exact Hc|].
    unfold Spec.block_text. rewrite !length_app, length_replicate.
    cbn [length]. lia.
  - unfold DS009, DS009a, DS009b, _tg. cbn [format]. run_io.
    rewrite !app_nil_r. unfold ljust. repeat split; reflexivity.
Qed.

Lemma block_text_encoding_witness :
  DS003a (lit "Stop") (Device [] [])
  = send_telegram (TStr (lit "zA" ++ Spec.block_text 16 (lit "Stop"))) 0
      (Device [] []).
Proof.
  apply (proj1 (block_text_encoding (lit "Stop") (Device [] []))).
  vm_compute. discriminate.
Defined.

(** C3 as stated fails: a text of 241 characters has 16 blocks, for which
    there is no VDV-hex character, so [DS003a] raises [IndexError] and sends
    nothing; and the 20-character next-stop telegram [DS009a] pads the text
    but sends no block count at all. *)
Lemma block_text_encoding_counterexample :
  DS003a (replicate 241 97%N) (Device [] []) = (Raise IndexError, Device [] []) /\
  ~ (exists h : N,
       DS003a (replicate 241 97%N) (Device [] [])
       = send_telegram
           (TStr (lit "zA" ++ [h] ++ replicate 241 97%N ++ replicate 15 32%N)) 0
           (Device [] [])) /\
  DS009a [VStr (lit "Stop")] (Device [] [])
  = (Ok None,
     Device [encode_ascii_replace (lit "vStop" ++ replicate 16 32%N)
             ++ [x0d; "<"%byte]] []).
Proof.
  split; [vm_compute; reflexivity|split; [|vm_compute; reflexivity]].
  intros [h Hh].
  destruct (send_telegram_no_reply
              (lit "zA" ++ [h] ++ replicate 241 97%N ++ replicate 15 32%N)
              (Device [] [])) as [c Hc].
  rewrite Hc in Hh. vm_compute in Hh. discriminate Hh.
Qed.

(** *** Line-progress connection text *)

Lemma Z_below_forallb (P : Z -> bool) (k : nat) :
  forallb P (Z.of_nat <$> seq 0 k) = true ->
  forall n : Z, 0 <= n < Z.of_nat k -> P n = true.
Proof.
  intros Hall n Hn. rewrite forallb_forall in Hall. apply Hall.
  apply in_map_iff. exists (Z.to_nat n). split; [lia|].
  apply in_seq. lia.
Qed.

Lemma format_two_digits (n : Z) :
  0 <= n <= 99 -> format_field (ZeroD 2) (VInt n) = Ok (Spec.two_digits n).
Proof.
  intros Hn.
  assert (forallb
            (fun n => bool_decide
                        (format_field (ZeroD 2) (VInt n) = Ok (Spec.two_digits n)))
            (Z.of_nat <$> seq 0 100) = true) as Hall
    by (vm_compute; reflexivity).
  pose proof (Z_below_forallb _ _ Hall n ltac:(lia)) as Hdec.
  apply bool_decide_eq_true in Hdec. exact Hdec.
Qed.

Lemma vdv_hex_nibble_char (n : Z) :
  0 <= n <= 15 -> vdv_hex (VInt n) = Ok (VStr [Spec.nibble_char n]).
Proof.
  intros Hn. destruct (vdv_hex_nibble n Hn) as (h & Hh & ->).
  unfold Spec.nibble_char. fold vdvhex. rewrite nth_lookup, Hh. reflexivity.
Qed.

(** C7, as amended.  For every stop id in 0..99 and every stop text and
    change text whose composite
    [0x03 ++ two-digit stop id ++ 0x04 ++ stop text ++ 0x05 ++ change text]
    has fewer than 256 characters, and an address that [vdv_hex] encodes,
    [DS021a] sends the command prefix, the address, then the two VDV-hex
    characters of [divmod(len(composite), 16)], then the composite. *)
Theorem DS021a_encoding (address a : value) (stop_id : Z)
    (stop_text change_text : list N) (dev : device) :
  vdv_hex address = Ok a ->
  0 <= stop_id <= 99 ->
  Z.of_nat (length (Spec.composite stop_id stop_text change_text)) < 256 ->
  let data := Spec.composite stop_id stop_text change_text in
  let num_blocks := Z.of_nat (length data) / 16 in
  let remainder := Z.of_nat (length data) mod 16 in
  DS021a address (VInt stop_id) (VStr stop_text) (VStr change_text) dev
  = send_telegram
      (TStr (lit "aL" ++ to_str a ++ [Spec.nibble_char num_blocks]
             ++ [Spec.nibble_char remainder] ++ data)) 0 dev /\
  Z.of_nat (length data) = 16 * num_blocks + remainder /\
  0 <= num_blocks <= 15 /\ 0 <= remainder <= 15.
Proof.
  intros Ha Hid Hlen data num_blocks remainder.
  pose proof (Z.div_mod (Z.of_nat (length data)) 16 ltac:(lia)) as Hdm.
  pose proof (Z.mod_pos_bound (Z.of_nat (length data)) 16 ltac:(lia)) as Hr.
  assert (0 <= num_blocks <= 15) as Hq.
  { unfold num_blocks. split; [apply Z.div_pos; lia|].
    apply Z.lt_succ_r, Z.div_lt_upper_bound; fold data in Hlen; lia. }
  split; [|split; [exact Hdm|split; [exact Hq|fold remainder in Hr; lia]]].
  assert (format [Text (String "003"%char EmptyString); Field (ZeroD 2);
                  Text (String "004"%char EmptyString); Field Plain;
                  Text (String "005"%char EmptyString); Field Plain]
                 [VInt stop_id; VStr stop_text; VStr change_text]
          = Ok data) as Hfmt.
  { cbn [format]. rewrite (format_two_digits _ Hid).
    cbn [format_field to_str mbind result_bind]. rewrite app_nil_r. reflexivity. }
  unfold DS021a. rewrite Hfmt. run_io.
  rewrite Ha. run_io.
  fold num_blocks remainder.
  rewrite (vdv_hex_nibble_char num_blocks Hq). run_io.
  rewrite (vdv_hex_nibble_char remainder) by (fold remainder in Hr; lia). run_io.
  rewrite app_nil_r. reflexivity.
Qed.

Lemma DS021a_encoding_witness :
  DS021a (VInt 1) (VInt 7) (VStr (lit "Hbf")) (VStr (lit "U1")) (Device [] [])
  = send_telegram
      (TStr (lit "aL" ++ lit "1" ++ [Spec.nibble_char (10 / 16)]
             ++ [Spec.nibble_char (10 mod 16)]
             ++ Spec.composite 7 (lit "Hbf") (lit "U1"))) 0 (Device [] []).
Proof.
  apply (DS021a_encoding (VInt 1) (VStr (lit "1")) 7 (lit "Hbf") (lit "U1")
           (Device [] [])).
  - reflexivity.
  - lia.
  - vm_compute. reflexivity.
Defined.

(** C7 as stated fails: a composite of 257 characters has 16 blocks, so
    [DS021a] raises [IndexError] and sends nothing; and the stop id 100 is
    written with three digits. *)
Lemma DS021a_encoding_counterexample :
  DS021a (VInt 0) (VInt 5) (VStr (replicate 252 97%N)) (VStr []) (Device [] [])
  = (Raise IndexError, Device [] []) /\
  DS021a (VInt 0) (VInt 100) (VStr []) (VStr []) (Device [] [])
  = (Ok None,
     Device [["a"; "L"; "0"; "0"; "6"; x03; "1"; "0"; "0"; x04; x05;
              x0d; "Z"]%byte] []).
Proof. split; vm_compute; reflexivity. Qed.

(** *** Queries on a silent bus *)

Section Silent.

Variable dev : device.
Hypothesis silent : pending dev = [].

Lemma send_telegram_silent (body : list N) (reply_length : Z) :
  reply_length <> 0 ->
  exists c : byte,
    send_telegram (TStr body) reply_length dev
    = (Ok (Some []),
       {| written := written dev ++ [process_special_characters body ++ [x0d; c]];
          pending := [] |}).
Proof.
  intros Hn. unfold send_telegram.
  destruct (wrap_telegram_ok (process_special_characters body)) as (c & Hw & _).
  exists c. rewrite io_bind_lift, Hw.
  destruct (Z.eqb_spec reply_length 0) as [|_]; [contradiction|].
  unfold mbind, io_bind, device_write, device_read, mret, io_ret.
  cbn [written pending]. rewrite silent, take_nil, drop_nil. reflexivity.
Qed.

Lemma query_silent (body : list N) (reply_length : Z)
    (parse : option (list N) -> result (option (gmap string value))) :
  reply_length <> 0 ->
  parse (Some []) = Ok None ->
  Spec.no_reply dev
    ((send_telegram (TStr body) reply_length ≫= fun reply => lift (parse reply)) dev).
Proof.
  intros Hn Hparse.
  destruct (send_telegram_silent body reply_length Hn) as [c Hc].
  eexists. unfold mbind at 1, io_bind. rewrite Hc. unfold lift.
  rewrite Hparse. reflexivity.
Qed.

(** A bind whose left side may raise: either it raises, and the query is
    rejected with the device untouched, or the method goes on. *)
Ltac step_io :=
  rewrite io_bind_lift;
  match goal with
  | |- context [match ?r with Ok _ => _ | Raise _ => _ end] =>
      destruct r; [|right; eexists; reflexivity]
  end.

Lemma DS020_silent (address : value) :
  Spec.no_reply dev (DS020 address dev) \/ Spec.rejected dev (DS020 address dev).
Proof.
  unfold DS020. do 2 step_io. left. apply query_silent; [lia|reflexivity].
Qed.

Lemma DS201_silent (address : value) :
  Spec.no_reply dev (DS201 address dev) \/ Spec.rejected dev (DS201 address dev).
Proof.
  unfold DS201. do 2 step_io. left. apply query_silent; [lia|reflexivity].
Qed.

Lemma DS060_silent (direction : value) : Spec.no_reply dev (DS060 direction dev).
Proof. unfold DS060. run_io. apply query_silent; [lia|reflexivity]. Qed.

Lemma DS601_silent (direction : value) : Spec.no_reply dev (DS601 direction dev).
Proof. unfold DS601. run_io. apply query_silent; [lia|reflexivity]. Qed.

Lemma DS061_silent (direction : value) : Spec.no_reply dev (DS061 direction dev).
Proof. unfold DS061. run_io. apply query_silent; [lia|reflexivity]. Qed.

Lemma DS068_silent (channel radio_telegram_type delay reporting_point_id hand
    line_number course_number destination_id train_length : value) :
  let out := DS068 channel radio_telegram_type delay reporting_point_id hand
               line_number course_number destination_id train_length dev in
  Spec.no_reply dev out \/ Spec.rejected dev out.
Proof.
  unfold DS068. step_io.
  change (vdv_hex (VInt 0)) with (Ok (VStr [48%N]) : result value).
  change (vdv_hex (VInt 6)) with (Ok (VStr [54%N]) : result value).
  rewrite io_bind_lift. step_io. rewrite io_bind_lift.
  do 5 step_io. left. apply query_silent; [lia|reflexivity].
Qed.

End Silent.

Lemma format_length_below (f : field) (k w : nat) :
  forallb (fun n => bool_decide (length <$> format_field f (VInt n) = Ok w))
          (Z.of_nat <$> seq 0 k) = true ->
  forall n : Z, 0 <= n < Z.of_nat k ->
  exists s : list N, format_field f (VInt n) = Ok s /\ length s = w.
Proof.
  intros Hall n Hn.
  pose proof (Z_below_forallb _ _ Hall n Hn) as Hdec.
  apply bool_decide_eq_true in Hdec.
  destruct (format_field f (VInt n)) as [s|]; [|discriminate Hdec].
  exists s. split; [reflexivity|]. injection Hdec as ->. reflexivity.
Qed.

Lemma DS020_silent_nominal (dev : device) (address : Z) :
  pending dev = [] -> 0 <= address <= 15 ->
  Spec.no_reply dev (DS020 (VInt address) dev).
Proof.
  intros silent Ha. unfold DS020.
  rewrite (vdv_hex_nibble_char address Ha). run_io.
  apply query_silent; [exact silent|lia|reflexivity].
Qed.

Lemma DS201_silent_nominal (dev : device) (address : Z) :
  pending dev = [] -> 0 <= address <= 15 ->
  Spec.no_reply dev (DS201 (VInt address) dev).
Proof.
  intros silent Ha. unfold DS201.
  rewrite (vdv_hex_nibble_char address Ha). run_io.
  apply query_silent; [exact silent|lia|reflexivity].
Qed.

Lemma DS068_silent_nominal (dev : device)
    (channel radio_telegram_type delay reporting_point_id hand
     line_number course_number destination_id train_length : Z) :
  pending dev = [] ->
  0 <= channel <= 15 -> 0 <= radio_telegram_type <= 99 -> 0 <= delay <= 15 ->
  0 <= reporting_point_id <= 9999 -> 0 <= hand <= 15 ->
  0 <= line_number <= 999 -> 0 <= course_number <= 99 ->
  0 <= destination_id <= 999 -> 0 <= train_length <= 15 ->
  Spec.no_reply dev
    (DS068 (VInt channel) (VInt radio_telegram_type) (VInt delay)
       (VInt reporting_point_id) (VInt hand) (VInt line_number)
       (VInt course_number) (VInt destination_id) (VInt train_length) dev).
Proof.
  intros silent Hch Hty Hde Hrp Hha Hli Hco Hds Htl.
  destruct (format_length_below (ZeroD 2) 100 2 ltac:(vm_compute; reflexivity)
              radio_telegram_type ltac:(lia)) as (sty & Ety & Lty).
  destruct (format_length_below (FillRight 48%N 4) (Z.to_nat 10000) 4
              ltac:(vm_compute; reflexivity)
              reporting_point_id ltac:(lia)) as (srp & Erp & Lrp).
  destruct (format_length_below (ZeroD 3) 1000 3 ltac:(vm_compute; reflexivity)
              line_number ltac:(lia)) as (sli & Eli & Lli).
  destruct (format_length_below (ZeroD 2) 100 2 ltac:(vm_compute; reflexivity)
              course_number ltac:(lia)) as (sco & Eco & Lco).
  destruct (format_length_below (ZeroD 3) 1000 3 ltac:(vm_compute; reflexivity)
              destination_id ltac:(lia)) as (sds & Eds & Lds).
  unfold DS068.
  rewrite (vdv_hex_nibble_char channel Hch), (vdv_hex_nibble_char delay Hde),
    (vdv_hex_nibble_char hand Hha), (vdv_hex_nibble_char train_length Htl).
  change (vdv_hex (VInt 0)) with (Ok (VStr [48%N]) : result value).
  change (vdv_hex (VInt 6)) with (Ok (VStr [54%N]) : result value).
  rewrite !io_bind_lift. cbn [format].
  rewrite Ety, Erp, Eli, Eco, Eds.
  cbn [format_field to_str mbind result_bind].
  match goal with
  | |- context [ceil_div (Z.of_nat (length ?radio)) 2] =>
      replace (ceil_div (Z.of_nat (length radio)) 2) with 10
        by (rewrite !length_app, Lty, Lrp, Lli, Lco, Lds; reflexivity)
  end.
  run_io. apply query_silent; [exact silent|lia|reflexivity].
Qed.

(** C5. When no octet arrives before the read timeout, each of the queries
    [DS020], [DS201], [DS060], [DS601], [DS061] and [DS068] returns the
    explicit no-reply value [None], after writing its one telegram: never a
    populated reply, and no exception once the telegram is out.  The only
    other outcome is an argument that cannot be encoded, rejected before
    anything is written; it does not occur for the direction queries, nor for
    addresses and radio-telegram fields within their ranges. *)
Theorem silent_queries_return_None (dev : device) :
  pending dev = [] ->
  (forall address : value,
     Spec.no_reply dev (DS020 address dev) \/ Spec.rejected dev (DS020 address dev)) /\
  (forall address : value,
     Spec.no_reply dev (DS201 address dev) \/ Spec.rejected dev (DS201 address dev)) /\
  (forall direction : value, Spec.no_reply dev (DS060 direction dev)) /\
  (forall direction : value, Spec.no_reply dev (DS601 direction dev)) /\
  (forall direction : value, Spec.no_reply dev (DS061 direction dev)) /\
  (forall channel radio_telegram_type delay reporting_point_id hand
          line_number course_number destination_id train_length : value,
     let out := DS068 channel radio_telegram_type delay reporting_point_id hand
                  line_number course_number destination_id train_length dev in
     Spec.no_reply dev out \/ Spec.rejected dev out) /\
  (forall address : Z, 0 <= address <= 15 ->
     Spec.no_reply dev (DS020 (VInt address) dev) /\
     Spec.no_reply dev (DS201 (VInt address) dev)) /\
  (forall channel radio_telegram_type delay reporting_point_id hand
          line_number course_number destination_id train_length : Z,
     0 <= channel <= 15 -> 0 <= radio_telegram_type <= 99 -> 0 <= delay <= 15 ->
     0 <= reporting_point_id <= 9999 -> 0 <= hand <= 15 ->
     0 <= line_number <= 999 -> 0 <= course_number <= 99 ->
     0 <= destination_id <= 999 -> 0 <= train_length <= 15 ->
     Spec.no_reply dev
       (DS068 (VInt channel) (VInt radio_telegram_type) (VInt delay)
          (VInt reporting_point_id) (VInt hand) (VInt line_number)
          (VInt course_number) (VInt destination_id) (VInt train_length) dev)).
Proof.
  intros silent.
  split; [exact (DS020_silent dev silent)|].
  split; [exact (DS201_silent dev silent)|].
  split; [exact (DS060_silent dev silent)|].
  split; [exact (DS601_silent dev silent)|].
  split; [exact (DS061_silent dev silent)|].
  split; [exact (DS068_silent dev silent)|].
  split.
  - intros address Ha. split.
    + exact (DS020_silent_nominal dev address silent Ha).
    + exact (DS201_silent_nominal dev address silent Ha).
  - intros. apply DS068_silent_nominal; assumption.
Qed.

Lemma silent_queries_return_None_witness :
  Spec.no_reply (Device [] []) (DS020 (VInt 3) (Device [] [])) /\
  Spec.no_reply (Device [] []) (DS201 (VInt 3) (Device [] [])) /\
  Spec.no_reply (Device [] []) (DS061 (VStr (lit "A")) (Device [] [])).
Proof.
  pose proof (silent_queries_return_None (Device [] []) eq_refl)
    as (_ & _ & _ & _ & H061 & _ & Hnominal & _).
  destruct (Hnominal 3 ltac:(lia)) as [H020 H201].
  split; [exact H020|split; [exact H201|exact (H061 (VStr (lit "A")))]].
Defined.

(** *** Version queries *)

(** C4. The two version decoders differ: [parse_DS1201] returns the raw
    substring, [parse_DS1601] parses it as an integer.  But the locating
    device version query [DS601] decodes its reply with [parse_DS1201], the
    decoder of the display version query [DS201], so both queries return the
    version as a raw string; [parse_DS1601] is never called. *)
Theorem DS601_returns_raw_version :
  fst (DS601 (VStr (lit "A"))
         (Device [] (encode_ascii_replace (lit "oV0000000000000123")
                     ++ [x0d; "0"%byte])))
    = Ok (Some {[ "version"%string := VStr (lit "0000000000000123") ]}) /\
  fst (DS201 (VInt 1)
         (Device [] (encode_ascii_replace (lit "aV123456") ++ [x0d; "0"%byte])))
    = Ok (Some {[ "version"%string := VStr (lit "123456") ]}) /\
  parse_DS1201 (Some (lit "oV0000000000000123"))
    = Ok (Some {[ "version"%string := VStr (lit "0000000000000123") ]}) /\
  parse_DS1601 (Some (lit "oV0000000000000123"))
    = Ok (Some {[ "version"%string := VInt 123 ]}) /\
  (forall (direction : value) (dev : device),
     DS601 direction dev
     = (s ← lift (format [Text "o"; Field Plain; Text "V"] [direction]);
        reply ← send_telegram (TStr s) 18;
        lift (parse_DS1201 reply)) dev).
Proof. repeat split; vm_compute; reflexivity. Qed.

(** ** Further properties of the code *)

(** *** The framer, continued *)

Lemma xor_fold_app (l1 l2 : list byte) (seed : Z) :
  xor_fold (l1 ++ l2) seed = xor_fold l2 (xor_fold l1 seed).
Proof. unfold xor_fold. apply fold_left_app. Qed.

Lemma xor_fold_seed (l : list byte) (seed : Z) :
  xor_fold l seed = Z.lxor seed (xor_fold l 0).
Proof.
  revert seed. induction l as [|b l IH]; intros seed.
  - unfold xor_fold. simpl. rewrite Z.lxor_0_r. reflexivity.
  - change (xor_fold (b :: l) seed) with (xor_fold l (Z.lxor seed (byte_to_Z b))).
    change (xor_fold (b :: l) 0) with (xor_fold l (Z.lxor 0 (byte_to_Z b))).
    rewrite (IH (Z.lxor seed (byte_to_Z b))), (IH (Z.lxor 0 (byte_to_Z b))).
    rewrite Z.lxor_0_l, Z.lxor_assoc. reflexivity.
Qed.

Lemma wrap_telegram_xor_fold (B : list byte) :
  exists c : byte,
    wrap_telegram B = Ok (B ++ [x0d; c]) /\
    byte_to_Z c = xor_fold (B ++ [x0d]) 0x7F.
Proof.
  destruct (wrap_telegram_ok B) as (c & Hw & Hc). exists c. split; assumption.
Qed.

(** X1. A framed telegram verifies: XOR-folding all of its octets, checksum
    included, from the seed [0x7F] gives zero. *)
Theorem framed_telegram_xor_is_zero (B : list byte) :
  exists framed : list byte,
    wrap_telegram B = Ok framed /\ xor_fold framed 0x7F = 0.
Proof.
  destruct (wrap_telegram_xor_fold B) as (c & Hw & Hc).
  exists (B ++ [x0d; c]). split; [exact Hw|].
  change (B ++ [x0d; c]) with (B ++ [x0d] ++ [c]).
  rewrite app_assoc, xor_fold_app.
  change (xor_fold [c] ?s) with (Z.lxor s (byte_to_Z c)).
  rewrite Hc. apply Z.lxor_nilpotent.
Qed.

(** X2. Framing loses nothing: dropping the last two octets of a framed
    telegram, as the receive path does, gives back the body, so two bodies
    with the same frame are equal. *)
Theorem framed_telegram_strips_to_body (B B' : list byte) :
  (exists framed : list byte,
     wrap_telegram B = Ok framed /\ drop_last2 framed = B) /\
  (wrap_telegram B = wrap_telegram B' -> B = B').
Proof.
  assert (forall (l : list byte) (a b : byte), drop_last2 (l ++ [a; b]) = l) as Hdrop.
  { intros l a b. unfold drop_last2. rewrite length_app. simpl.
    replace (length l + 2 - 2)%nat with (length l) by lia.
    apply take_app_length. }
  destruct (wrap_telegram_xor_fold B) as (c & Hw & _).
  destruct (wrap_telegram_xor_fold B') as (c' & Hw' & _).
  split.
  - exists (B ++ [x0d; c]). split; [exact Hw|apply Hdrop].
  - rewrite Hw, Hw'. intros [= Heq].
    rewrite <- (Hdrop B x0d c), Heq. apply Hdrop.
Qed.

Lemma framed_telegram_strips_to_body_witness :
  (exists framed : list byte,
     wrap_telegram ["l"; "0"; "1"; "2"]%byte = Ok framed /\
     drop_last2 framed = ["l"; "0"; "1"; "2"]%byte) /\
  ["l"; "0"; "1"; "2"]%byte = ["l"; "0"; "1"; "2"]%byte.
Proof.
  destruct (framed_telegram_strips_to_body ["l"; "0"; "1"; "2"]%byte
              ["l"; "0"; "1"; "2"]%byte) as [Hstrip Hinj].
  split; [exact Hstrip|apply Hinj; reflexivity].
Defined.

Lemma lxor_cancel_r (x y z : Z) : Z.lxor x z = Z.lxor y z -> x = y.
Proof.
  intros H.
  rewrite <- (Z.lxor_0_r x), <- (Z.lxor_0_r y), <- (Z.lxor_nilpotent z).
  rewrite <- !Z.lxor_assoc, H. reflexivity.
Qed.

Lemma xor_fold_middle (l1 r : list byte) (a : byte) (seed : Z) :
  xor_fold (l1 ++ [a] ++ r) seed = Z.lxor (byte_to_Z a) (xor_fold (l1 ++ r) seed).
Proof.
  rewrite !xor_fold_app.
  change (xor_fold [a] ?s) with (Z.lxor s (byte_to_Z a)).
  rewrite (xor_fold_seed r (Z.lxor _ _)), (xor_fold_seed r (xor_fold l1 seed)).
  rewrite (Z.lxor_comm (xor_fold l1 seed) (byte_to_Z a)), Z.lxor_assoc.
  reflexivity.
Qed.

Lemma byte_to_Z_inj (a b : byte) : byte_to_Z a = byte_to_Z b -> a = b.
Proof.
  unfold byte_to_Z. intros H. apply N2Z.inj in H.
  assert (Some a = Some b) as [= ->]; [|reflexivity].
  rewrite <- (Byte.of_to_N a), <- (Byte.of_to_N b), H. reflexivity.
Qed.

(** X3. The checksum detects every single-octet error: two bodies that
    differ in exactly one position have different checksums. *)
Theorem checksum_detects_single_octet_error (l1 l2 : list byte) (a b : byte) :
  a <> b ->
  exists c1 c2 : byte,
    wrap_telegram (l1 ++ [a] ++ l2) = Ok ((l1 ++ [a] ++ l2) ++ [x0d; c1]) /\
    wrap_telegram (l1 ++ [b] ++ l2) = Ok ((l1 ++ [b] ++ l2) ++ [x0d; c2]) /\
    c1 <> c2.
Proof.
  intros Hab.
  destruct (wrap_telegram_xor_fold (l1 ++ [a] ++ l2)) as (c1 & Hw1 & Hc1).
  destruct (wrap_telegram_xor_fold (l1 ++ [b] ++ l2)) as (c2 & Hw2 & Hc2).
  exists c1, c2. split; [exact Hw1|]. split; [exact Hw2|].
  intros ->. rewrite Hc1 in Hc2.
  rewrite <- !app_assoc, !xor_fold_middle in Hc2.
  apply Hab, byte_to_Z_inj.
  apply (lxor_cancel_r _ _ (xor_fold (l1 ++ l2 ++ [x0d]) 127)). exact Hc2.
Qed.

Lemma checksum_detects_single_octet_error_witness :
  exists c1 c2 : byte,
    wrap_telegram (["l"; "0"] ++ ["1"] ++ ["2"])%byte
      = Ok (((["l"; "0"] ++ ["1"] ++ ["2"]) ++ [x0d; c1])%byte) /\
    wrap_telegram (["l"; "0"] ++ ["7"] ++ ["2"])%byte
      = Ok (((["l"; "0"] ++ ["7"] ++ ["2"]) ++ [x0d; c2])%byte) /\
    c1 <> c2.
Proof.
  apply (checksum_detects_single_octet_error ["l"; "0"]%byte ["2"]%byte
           "1"%byte "7"%byte).
  discriminate.
Defined.

(** *** Sending, continued *)

Lemma lxor_range (n a b : Z) :
  0 <= n -> 0 <= a < 2 ^ n -> 0 <= b < 2 ^ n -> 0 <= Z.lxor a b < 2 ^ n.
Proof.
  intros Hn Ha Hb.
  assert (0 <= Z.lxor a b) as Hnn by (apply Z.lxor_nonneg; lia).
  split; [exact Hnn|].
  destruct (Z.eq_dec (Z.lxor a b) 0) as [->|Hne]; [lia|].
  apply Z.log2_lt_pow2; [lia|].
  pose proof (Z.log2_lxor a b ltac:(lia) ltac:(lia)) as Hlog.
  assert (forall x, 0 <= x < 2 ^ n -> x <> 0 -> Z.log2 x < n) as Hlt.
  { intros x Hx Hx0. apply Z.log2_lt_pow2; lia. }
  destruct (Z.eq_dec a 0) as [->|Ha0]; destruct (Z.eq_dec b 0) as [->|Hb0].
  - rewrite Z.lxor_0_l in Hne. congruence.
  - rewrite Z.lxor_0_l in *. apply Hlt; lia.
  - rewrite Z.lxor_0_r in *. apply Hlt; lia.
  - specialize (Hlt a Ha Ha0) as Hla. specialize (Hlt b Hb Hb0) as Hlb. lia.
Qed.

Lemma xor_fold_seven_bit (l : list byte) (seed : Z) :
  Forall (fun b => byte_to_Z b < 128) l ->
  0 <= seed < 128 -> 0 <= xor_fold l seed < 128.
Proof.
  intros Hl. revert seed.
  induction Hl as [|b l Hb _ IH]; intros seed Hseed; [exact Hseed|].
  change (xor_fold (b :: l) seed) with (xor_fold l (Z.lxor seed (byte_to_Z b))).
  apply IH. apply (lxor_range 7); [lia|exact Hseed|].
  pose proof (byte_to_Z_range b). change (2 ^ 7) with 128. lia.
Qed.

Lemma process_special_characters_seven_bit (body : list N) :
  Forall (fun b => byte_to_Z b < 128) (process_special_characters body).
Proof.
  rewrite process_special_characters_pointwise.
  apply Forall_fmap, Forall_forall. intros c _. unfold compose, byte_to_Z.
  pose proof (sanitize_char_range c). lia.
Qed.

(** X4. A text telegram is 7-bit clean on the wire: every octet written for
    a [str] telegram, the terminator and the checksum included, is below
    128. *)
Theorem text_telegram_is_seven_bit (body : list N) (dev : device) :
  exists telegram : list byte,
    send_telegram (TStr body) 0 dev
    = (Ok None,
       {| written := written dev ++ [telegram]; pending := pending dev |}) /\
    Forall (fun b => byte_to_Z b < 128) telegram.
Proof.
  pose proof (process_special_characters_seven_bit body) as Hbody.
  destruct (wrap_telegram_xor_fold (process_special_characters body))
    as (c & Hw & Hc).
  exists (process_special_characters body ++ [x0d; c]). split.
  - unfold send_telegram. rewrite io_bind_lift, Hw. reflexivity.
  - apply Forall_app. split; [exact Hbody|].
    repeat constructor. rewrite Hc.
    apply xor_fold_seven_bit; [|lia].
    apply Forall_app. split; [exact Hbody|]. repeat constructor.
Qed.

(** X5. Sending without an expected reply never raises and never reads: it
    writes exactly one frame, the payload followed by [0x0D] and by the
    checksum, the XOR of [0x7F] with every octet of the payload and with the
    terminator, and returns [None], leaving the pending octets untouched.  A
    [str] is sanitized first; [bytes] and a [bytearray] are framed
    verbatim. *)
Theorem send_without_reply (telegram : telegram_arg) (dev : device) :
  let payload :=
    match telegram with
    | TStr s => process_special_characters s
    | TBytes b => b
    | TByteArray b => b
    end in
  exists c : byte,
    byte_to_Z c = xor_fold (payload ++ [x0d]) 0x7F /\
    send_telegram telegram 0 dev
    = (Ok None,
       {| written := written dev ++ [payload ++ [x0d; c]];
          pending := pending dev |}).
Proof.
  intros payload. unfold send_telegram. fold payload.
  destruct (wrap_telegram_xor_fold payload) as (c & Hw & Hc).
  exists c. split; [exact Hc|].
  rewrite io_bind_lift, Hw. reflexivity.
Qed.

Lemma drop_last2_app2 {A : Type} (l : list A) (a b : A) :
  drop_last2 (l ++ [a; b]) = l.
Proof.
  unfold drop_last2. rewrite length_app. simpl.
  replace (length l + 2 - 2)%nat with (length l) by lia.
  apply take_app_length.
Qed.

Lemma send_telegram_reply (telegram : telegram_arg) (reply_length : Z)
    (dev : device) :
  reply_length <> 0 ->
  exists sent : list byte,
    send_telegram telegram reply_length dev
    = (Ok (Some (decode_latin1
                   (drop_last2 (take (Z.to_nat (reply_length + 2)) (pending dev))))),
       {| written := written dev ++ [sent];
          pending := drop (Z.to_nat (reply_length + 2)) (pending dev) |}).
Proof.
  intros Hn. unfold send_telegram.
  destruct (wrap_telegram_ok
              match telegram with
              | TStr s => process_special_characters s
              | TBytes b => b
              | TByteArray b => b
              end) as (c & Hw & _).
  eexists. rewrite io_bind_lift, Hw.
  destruct (Z.eqb_spec reply_length 0) as [|_]; [contradiction|].
  reflexivity.
Qed.

(** X6. The reply is not verified: when the device delivers the
    [reply_length] octets of a reply and two more, [send_telegram] returns
    the reply decoded as Latin-1 whatever the two trailing octets are, and
    leaves the octets behind them pending. *)
Theorem reply_trailer_is_not_verified (telegram : telegram_arg)
    (reply_length : Z) (reply : list byte) (t c : byte) (rest : list byte)
    (dev : device) :
  reply_length <> 0 ->
  Z.of_nat (length reply) = reply_length ->
  pending dev = reply ++ [t; c] ++ rest ->
  exists sent : list byte,
    send_telegram telegram reply_length dev
    = (Ok (Some (decode_latin1 reply)),
       {| written := written dev ++ [sent]; pending := rest |}).
Proof.
  intros Hn Hlen Hpending.
  destruct (send_telegram_reply telegram reply_length dev Hn) as [sent Hsent].
  exists sent. rewrite Hsent, Hpending.
  replace (Z.to_nat (reply_length + 2)) with (length (reply ++ [t; c]))
    by (rewrite length_app; simpl; lia).
  rewrite app_assoc, take_app_length, drop_app_length, drop_last2_app2.
  reflexivity.
Qed.

Lemma reply_trailer_is_not_verified_witness :
  exists sent : list byte,
    send_telegram (TStr (lit "a3")) 2
      (Device [] (["a"; "2"] ++ ["!"; "!"] ++ ["x"])%byte)
    = (Ok (Some (decode_latin1 ["a"; "2"]%byte)),
       {| written := [] ++ [sent]; pending := ["x"]%byte |}).
Proof.
  apply (reply_trailer_is_not_verified (TStr (lit "a3")) 2 ["a"; "2"]%byte
           "!"%byte "!"%byte ["x"]%byte
           (Device [] (["a"; "2"] ++ ["!"; "!"] ++ ["x"])%byte)).
  - lia.
  - reflexivity.
  - reflexivity.
Defined.

(** *** Queries and their replies *)

Lemma query_reply (body : list N) (reply_length : Z)
    (parse : option (list N) -> result (option (gmap string value)))
    (dev : device) :
  reply_length <> 0 ->
  exists sent : list byte,
    (send_telegram (TStr body) reply_length ≫= fun reply => lift (parse reply)) dev
    = (parse (Some (decode_latin1
                      (drop_last2 (take (Z.to_nat (reply_length + 2))
                                        (pending dev))))),
       {| written := written dev ++ [sent];
          pending := drop (Z.to_nat (reply_length + 2)) (pending dev) |}).
Proof.
  intros Hn.
  destruct (send_telegram_reply (TStr body) reply_length dev Hn) as [sent Hsent].
  exists sent. unfold mbind at 1, io_bind. rewrite Hsent. reflexivity.
Qed.

Lemma drop_last2_short {A : Type} (l : list A) :
  (length l <= 2)%nat -> drop_last2 l = [].
Proof.
  intros Hl. unfold drop_last2.
  replace (length l - 2)%nat with 0%nat by lia. apply take_0.
Qed.

Lemma query_short (body : list N) (reply_length : Z)
    (parse : option (list N) -> result (option (gmap string value)))
    (dev : device) :
  0 < reply_length ->
  (length (pending dev) <= 2)%nat ->
  parse (Some []) = Ok None ->
  Spec.no_reply dev
    ((send_telegram (TStr body) reply_length ≫= fun reply => lift (parse reply)) dev).
Proof.
  intros Hn Hshort Hparse.
  destruct (query_reply body reply_length parse dev ltac:(lia)) as [sent Hsent].
  exists sent. rewrite Hsent.
  rewrite drop_last2_short by (rewrite length_take; lia).
  rewrite drop_ge by lia. unfold decode_latin1. rewrite fmap_nil, Hparse.
  reflexivity.
Qed.

(** X7. One or two stray octets count as no reply: when at most two octets
    arrive, the terminator-and-checksum strip leaves an empty reply and the
    direction queries, and the display queries for an address in 0..15,
    return [None]; the stray octets are consumed. *)
Theorem stray_octets_count_as_no_reply (dev : device) :
  (length (pending dev) <= 2)%nat ->
  (forall direction : value, Spec.no_reply dev (DS060 direction dev)) /\
  (forall direction : value, Spec.no_reply dev (DS601 direction dev)) /\
  (forall direction : value, Spec.no_reply dev (DS061 direction dev)) /\
  (forall address : Z, 0 <= address <= 15 ->
     Spec.no_reply dev (DS020 (VInt address) dev) /\
     Spec.no_reply dev (DS201 (VInt address) dev)).
Proof.
  intros Hshort.
  split; [|split; [|split; [|]]].
  - intros direction. unfold DS060. run_io.
    apply query_short; [lia|exact Hshort|reflexivity].
  - intros direction. unfold DS601. run_io.
    apply query_short; [lia|exact Hshort|reflexivity].
  - intros direction. unfold DS061. run_io.
    apply query_short; [lia|exact Hshort|reflexivity].
  - intros address Ha. split.
    + unfold DS020. rewrite (vdv_hex_nibble_char address Ha). run_io.
      apply query_short; [lia|exact Hshort|reflexivity].
    + unfold DS201. rewrite (vdv_hex_nibble_char address Ha). run_io.
      apply query_short; [lia|exact Hshort|reflexivity].
Qed.

Lemma stray_octets_count_as_no_reply_witness :
  Spec.no_reply (Device [] [x0d; "0"]%byte)
    (DS060 (VStr (lit "A")) (Device [] [x0d; "0"]%byte)).
Proof.
  apply (proj1 (stray_octets_count_as_no_reply (Device [] [x0d; "0"]%byte)
                  ltac:(simpl; lia))).
Defined.

(** X8. A truncated reply is a fault, not a no-reply: when exactly three
    octets arrive, the display status query has written its telegram and
    then raises [IndexError], because the one character left after the strip
    has no status position; likewise the locating device status query when
    three or four octets arrive. *)
Theorem truncated_reply_raises (dev : device) :
  (forall address : Z, 0 <= address <= 15 ->
     length (pending dev) = 3%nat ->
     exists sent : list byte,
       DS020 (VInt address) dev
       = (Raise IndexError,
          {| written := written dev ++ [sent]; pending := [] |})) /\
  (forall direction : value,
     (3 <= length (pending dev) <= 4)%nat ->
     exists sent : list byte,
       DS060 direction dev
       = (Raise IndexError,
          {| written := written dev ++ [sent]; pending := [] |})).
Proof.
  split.
  - intros address Ha Hlen.
    unfold DS020. rewrite (vdv_hex_nibble_char address Ha). run_io.
    match goal with
    | |- context [send_telegram (TStr ?b) 2] =>
        destruct (query_reply b 2 parse_DS120 dev ltac:(lia)) as [sent ->]
    end.
    exists sent.
    destruct (pending dev) as [|x [|y [|z [|? ?]]]]; try discriminate Hlen.
    reflexivity.
  - intros direction Hlen.
    unfold DS060. run_io.
    match goal with
    | |- context [send_telegram (TStr ?b) 3] =>
        destruct (query_reply b 3 parse_DS160 dev ltac:(lia)) as [sent ->]
    end.
    exists sent.
    destruct (pending dev) as [|x [|y [|z [|u [|? ?]]]]];
      simpl in Hlen; try lia; reflexivity.
Qed.

Lemma truncated_reply_raises_witness :
  exists sent : list byte,
    DS020 (VInt 3) (Device [] ["a"; "2"; x0d]%byte)
    = (Raise IndexError, {| written := [] ++ [sent]; pending := [] |}).
Proof.
  apply (proj1 (truncated_reply_raises (Device [] ["a"; "2"; x0d]%byte)) 3).
  - lia.
  - reflexivity.
Defined.

(** X9. The display status query decodes the second character of the
    reply through the status table, whatever the first character and the two
    trailing octets are, and leaves the octets behind them pending. *)
Theorem DS020_decodes_status (address : Z) (e s t c : byte) (rest : list byte)
    (dev : device) :
  0 <= address <= 15 ->
  pending dev = e :: s :: t :: c :: rest ->
  exists sent : list byte,
    DS020 (VInt address) dev
    = (Ok (Some {[ "status"%string :=
                     VStr (Spec.display_status (Byte.to_N s)) ]}),
       {| written := written dev ++ [sent]; pending := rest |}).
Proof.
  intros Ha Hpending.
  unfold DS020. rewrite (vdv_hex_nibble_char address Ha). run_io.
  match goal with
  | |- context [send_telegram (TStr ?b) 2] =>
      destruct (query_reply b 2 parse_DS120 dev ltac:(lia)) as [sent ->]
  end.
  exists sent. rewrite Hpending.
  change (Z.to_nat (2 + 2)) with 4%nat. cbn [take drop].
  change (drop_last2 [e; s; t; c]) with [e; s].
  unfold decode_latin1, parse_DS120. cbn [fmap list_fmap].
  rewrite (getitem_nonneg _ 1 (Byte.to_N s)) by (lia || reflexivity).
  cbn [fmap result_fmap mbind result_bind].
  rewrite display_statuses_lookup. reflexivity.
Qed.

Lemma DS020_decodes_status_witness :
  exists sent : list byte,
    DS020 (VInt 3) (Device [] ["a"; "2"; x0d; "!"]%byte)
    = (Ok (Some {[ "status"%string :=
                     VStr (Spec.display_status (Byte.to_N "2"%byte)) ]}),
       {| written := [] ++ [sent]; pending := [] |}).
Proof.
  apply (DS020_decodes_status 3 "a"%byte "2"%byte x0d "!"%byte []
           (Device [] ["a"; "2"; x0d; "!"]%byte)).
  - lia.
  - reflexivity.
Defined.

(** X10. The display version query returns, as a raw string, the six
    characters that follow the first two of the reply, whatever the two
    trailing octets are. *)
Theorem DS201_returns_version (address : Z) (p0 p1 t c : byte)
    (version rest : list byte) (dev : device) :
  0 <= address <= 15 ->
  length version = 6%nat ->
  pending dev = p0 :: p1 :: version ++ [t; c] ++ rest ->
  exists sent : list byte,
    DS201 (VInt address) dev
    = (Ok (Some {[ "version"%string := VStr (decode_latin1 version) ]}),
       {| written := written dev ++ [sent]; pending := rest |}).
Proof.
  intros Ha Hlen Hpending.
  unfold DS201. rewrite (vdv_hex_nibble_char address Ha). run_io.
  match goal with
  | |- context [send_telegram (TStr ?b) 8] =>
      destruct (query_reply b 8 parse_DS1201 dev ltac:(lia)) as [sent ->]
  end.
  exists sent. rewrite Hpending.
  replace (p0 :: p1 :: version ++ [t; c] ++ rest)
    with ((p0 :: p1 :: version ++ [t; c]) ++ rest)
    by (simpl; rewrite <- app_assoc; reflexivity).
  replace (Z.to_nat (8 + 2)) with (length (p0 :: p1 :: version ++ [t; c]))
    by (simpl; rewrite length_app, Hlen; reflexivity).
  rewrite take_app_length, drop_app_length.
  change (p0 :: p1 :: version ++ [t; c]) with ((p0 :: p1 :: version) ++ [t; c]).
  rewrite drop_last2_app2. reflexivity.
Qed.

Lemma DS201_returns_version_witness :
  exists sent : list byte,
    DS201 (VInt 1)
      (Device [] ("a" :: "V" :: ["1"; "."; "0"; "2"; "b"; " "]
                  ++ [x0d; "!"] ++ [])%byte)
    = (Ok (Some {[ "version"%string :=
                     VStr (decode_latin1 ["1"; "."; "0"; "2"; "b"; " "]%byte) ]}),
       {| written := [] ++ [sent]; pending := [] |}).
Proof.
  apply (DS201_returns_version 1 "a"%byte "V"%byte x0d "!"%byte
           ["1"; "."; "0"; "2"; "b"; " "]%byte []
           (Device [] ("a" :: "V" :: ["1"; "."; "0"; "2"; "b"; " "]
                       ++ [x0d; "!"] ++ [])%byte)).
  - lia.
  - reflexivity.
  - reflexivity.
Defined.

Lemma locating_statuses_lookup (c : N) :
  let statuses : gmap (list N) (list N) :=
    list_to_map [(lit "0", lit "ok_no_information");
                 (lit "1", lit "information_read");
                 (lit "2", lit "new_information")] in
  default [c] (statuses !! [c]) = locating_status c.
Proof.
  intros statuses. unfold locating_status, statuses.
  repeat match goal with
         | |- context [N.eqb c ?k] =>
             destruct (N.eqb_spec c k) as [->|?]; [vm_compute; reflexivity|]
         end.
  change (lit "0") with [48%N]. change (lit "1") with [49%N].
  change (lit "2") with [50%N].
  cbn [list_to_map foldr fst snd uncurry].
  rewrite !lookup_insert_ne by congruence.
  rewrite lookup_empty. reflexivity.
Qed.

(** X11. The locating device status decoder reads the third character of
    the reply and maps 0, 1 and 2 to [ok_no_information],
    [information_read] and [new_information]; any other character passes
    through as the raw character. *)
Theorem parse_DS160_status (telegram : list N) (c : N) :
  telegram !! 2%nat = Some c ->
  parse_DS160 (Some telegram)
    = Ok (Some {[ "status"%string := VStr (locating_status c) ]}) /\
  (c ∉ [48; 49; 50]%N -> locating_status c = [c]).
Proof.
  intros Hc. split.
  - destruct telegram as [|a telegram]; [discriminate|].
    unfold parse_DS160.
    rewrite (getitem_nonneg (a :: telegram) 2 c) by (lia || exact Hc).
    cbn [fmap result_fmap mbind result_bind].
    rewrite locating_statuses_lookup. reflexivity.
  - intros Hout. unfold locating_status.
    repeat match goal with
           | |- context [N.eqb c ?k] =>
               destruct (N.eqb_spec c k) as [->|?];
                 [exfalso; apply Hout; repeat constructor|]
           end.
    reflexivity.
Qed.

Lemma parse_DS160_status_witness :
  parse_DS160 (Some (lit "oS1"))
    = Ok (Some {[ "status"%string := VStr (locating_status 49%N) ]}) /\
  (49%N ∉ [48; 49; 50]%N -> locating_status 49%N = [49%N]).
Proof. apply (parse_DS160_status (lit "oS1") 49%N). reflexivity. Defined.

(** *** The VDV-hex codec, continued *)

Lemma vdv_hex_index_error (v : Z) :
  16 <= v \/ v <= -17 -> vdv_hex (VInt v) = Raise IndexError.
Proof.
  intros Hv. unfold vdv_hex.
  rewrite getitem_out_of_range; [reflexivity|].
  rewrite vdvhex_length. lia.
Qed.

Lemma vdv_hex_negative_nibble (v : Z) :
  -16 <= v <= -1 -> vdv_hex (VInt v) = Ok (VStr [Spec.nibble_char (v + 16)]).
Proof.
  intros Hv.
  destruct (lookup_lt_is_Some_2 vdvhex (Z.to_nat (v + 16))) as [c Hc];
    [rewrite vdvhex_length; lia|].
  unfold vdv_hex.
  rewrite (getitem_negative vdvhex v c);
    [|rewrite vdvhex_length; lia|rewrite vdvhex_length; exact Hc].
  unfold Spec.nibble_char. fold vdvhex. rewrite nth_lookup, Hc. reflexivity.
Qed.

Lemma vdv_hex_member_decodes (c : N) :
  c ∈ vdvhex -> exists n : Z, vdv_hex (VStr [c]) = Ok (VInt n).
Proof.
  intros Hc. destruct (find vdvhex [c]) as [i|] eqn:Hi.
  - exists (Z.of_nat i). unfold vdv_hex, index. rewrite Hi. reflexivity.
  - exfalso. revert Hc Hi. generalize vdvhex. intros s Hc.
    induction Hc as [c s|c d s _ IH]; simpl.
    + rewrite N.eqb_refl. discriminate.
    + destruct (N.eqb_spec c d); [discriminate|]. simpl.
      destruct (find s [c]); [discriminate|]. intros _. apply IH. reflexivity.
Qed.

(** X12. The other round trip of the codec: every character of the
    alphabet decodes to a value in 0..15 that encodes back to the same
    character. *)
Theorem vdv_hex_decode_encode (c : N) :
  c ∈ vdvhex ->
  exists n : Z,
    0 <= n <= 15 /\
    vdv_hex (VStr [c]) = Ok (VInt n) /\
    vdv_hex (VInt n) = Ok (VStr [c]).
Proof.
  intros Hc. apply list_elem_of_In in Hc. cbv in Hc.
  repeat (destruct Hc as [<-|Hc];
          [eexists; split; [|split; [reflexivity|reflexivity]]; lia|]).
  contradiction.
Qed.

Lemma vdv_hex_decode_encode_witness :
  exists n : Z,
    0 <= n <= 15 /\
    vdv_hex (VStr [59%N]) = Ok (VInt n) /\
    vdv_hex (VInt n) = Ok (VStr [59%N]).
Proof.
  apply (vdv_hex_decode_encode 59%N).
  apply (bool_decide_unpack _). vm_compute. exact I.
Defined.

Lemma startswith_take (s sub : list N) :
  startswith s sub = true -> take (length sub) s = sub.
Proof.
  revert s. induction sub as [|c sub IH]; intros s; [reflexivity|].
  destruct s as [|d s]; simpl; [discriminate|].
  destruct (N.eqb_spec c d) as [->|]; [|discriminate].
  simpl. intros H. rewrite (IH s H). reflexivity.
Qed.

Lemma find_take (s sub : list N) (i : nat) :
  find s sub = Some i -> take (length sub) (drop i s) = sub.
Proof.
  revert i. induction s as [|d s IH]; intros i.
  - simpl. destruct (startswith [] sub) eqn:Hs; [|discriminate].
    intros [= <-]. apply startswith_take, Hs.
  - cbn [find]. destruct (startswith (d :: s) sub) eqn:Hs.
    + intros [= <-]. apply startswith_take, Hs.
    + destruct (find s sub) as [j|]; [|discriminate].
      intros [= <-]. simpl. apply IH. reflexivity.
Qed.

(** X13. Decoding is a substring search, not a character lookup: whatever
    [str] decodes successfully is the piece of the alphabet that starts at
    the returned position; every non-empty piece of the alphabet decodes to
    its start, and the empty string decodes to 0. *)
Theorem vdv_hex_decodes_substrings :
  (forall (s : list N) (v : value),
     vdv_hex (VStr s) = Ok v ->
     exists i : nat, v = VInt (Z.of_nat i) /\ take (length s) (drop i vdvhex) = s) /\
  (forall i len : nat,
     (0 < len)%nat -> (i + len <= 16)%nat ->
     vdv_hex (VStr (take len (drop i vdvhex))) = Ok (VInt (Z.of_nat i))) /\
  vdv_hex (VStr []) = Ok (VInt 0).
Proof.
  split; [|split; [|reflexivity]].
  - intros s v. unfold vdv_hex, index.
    destruct (find vdvhex s) as [i|] eqn:Hi; [|discriminate].
    cbn [mbind result_bind]. intros [= <-].
    exists i. split; [reflexivity|]. apply find_take, Hi.
  - intros i len Hlen Hi.
    assert (forallb
              (fun i =>
                 forallb
                   (fun len =>
                      if ((0 <? len) && (i + len <=? 16))%nat
                      then bool_decide
                             (vdv_hex (VStr (take len (drop i vdvhex)))
                              = Ok (VInt (Z.of_nat i)))
                      else true)
                   (seq 0 17))
              (seq 0 17) = true) as Hall by (vm_compute; reflexivity).
    rewrite forallb_forall in Hall.
    specialize (Hall i ltac:(apply in_seq; lia)).
    rewrite forallb_forall in Hall.
    specialize (Hall len ltac:(apply in_seq; lia)).
    destruct (Nat.ltb_spec 0 len); [|lia].
    destruct (Nat.leb_spec (i + len) 16); [|lia].
    apply bool_decide_eq_true in Hall. exact Hall.
Qed.

Lemma vdv_hex_decodes_substrings_witness :
  (exists i : nat,
     VInt 1 = VInt (Z.of_nat i) /\
     take (length (lit "12")) (drop i vdvhex) = lit "12") /\
  vdv_hex (VStr (take 3 (drop 9 vdvhex))) = Ok (VInt (Z.of_nat 9)).
Proof.
  split.
  - apply (proj1 vdv_hex_decodes_substrings (lit "12") (VInt 1)). reflexivity.
  - apply (proj1 (proj2 vdv_hex_decodes_substrings) 9%nat 3%nat); lia.
Defined.

(** *** Line progress display *)

Lemma high_nibble_div (x : Z) : Z.shiftr x 4 = x / 16.
Proof. rewrite Z.shiftr_div_pow2 by lia. reflexivity. Qed.

Lemma low_nibble_mod (x : Z) : Z.land x 15 = x mod 16.
Proof. change 15 with (Z.ones 4). rewrite Z.land_ones by lia. reflexivity. Qed.

Lemma DS010c_in_range (stop_id : Z) (dev : device) :
  0 <= stop_id <= 255 ->
  DS010c stop_id dev
  = send_telegram
      (TStr (lit "xZ" ++ [Spec.nibble_char (stop_id / 16);
                          Spec.nibble_char (stop_id mod 16)])) 0 dev.
Proof.
  intros Hid. unfold DS010c. rewrite high_nibble_div, low_nibble_mod.
  pose proof (Z.mod_pos_bound stop_id 16 ltac:(lia)).
  assert (0 <= stop_id / 16 <= 15).
  { split; [apply Z.div_pos; lia|].
    apply Z.lt_succ_r, Z.div_lt_upper_bound; lia. }
  rewrite (vdv_hex_nibble_char (stop_id / 16)) by lia. run_io.
  rewrite (vdv_hex_nibble_char (stop_id mod 16)) by lia. run_io.
  reflexivity.
Qed.

(** X14. [DS010c] sends the stop id as two VDV-hex characters, high nibble
    first, for every stop id in 0..255, so that id = 16 * high + low (18
    gives "xZ12").  Above 255 and below -256 it raises [IndexError] and
    sends nothing; a stop id in -256..-1 is not rejected but sent as the
    stop id plus 256. *)
Theorem DS010c_nibbles (stop_id : Z) (dev : device) :
  (0 <= stop_id <= 255 ->
     DS010c stop_id dev
     = send_telegram
         (TStr (lit "xZ" ++ [Spec.nibble_char (stop_id / 16);
                             Spec.nibble_char (stop_id mod 16)])) 0 dev /\
     stop_id = 16 * (stop_id / 16) + stop_id mod 16 /\
     0 <= stop_id / 16 <= 15 /\ 0 <= stop_id mod 16 <= 15) /\
  (stop_id < -256 \/ 255 < stop_id ->
     DS010c stop_id dev = (Raise IndexError, dev)) /\
  (-256 <= stop_id <= -1 ->
     DS010c stop_id dev = DS010c (stop_id + 256) dev) /\
  DS010c 18 dev = send_telegram (TStr (lit "xZ12")) 0 dev.
Proof.
  pose proof (Z.div_mod stop_id 16 ltac:(lia)) as Hdm.
  pose proof (Z.mod_pos_bound stop_id 16 ltac:(lia)) as Hmod.
  split; [|split; [|split; [|reflexivity]]].
  - intros Hid. split; [apply DS010c_in_range, Hid|].
    split; [exact Hdm|]. split; [|lia].
    split; [apply Z.div_pos; lia|].
    apply Z.lt_succ_r, Z.div_lt_upper_bound; lia.
  - intros Hid. unfold DS010c. rewrite high_nibble_div.
    rewrite (vdv_hex_index_error (stop_id / 16)); [run_io; reflexivity|].
    destruct Hid as [Hid|Hid].
    + right. apply Z.lt_succ_r, Z.div_lt_upper_bound; lia.
    + left. apply Z.div_le_lower_bound; lia.
  - intros Hid. rewrite (DS010c_in_range (stop_id + 256)) by lia.
    unfold DS010c. rewrite high_nibble_div, low_nibble_mod.
    assert (-16 <= stop_id / 16 <= -1).
    { split; [apply Z.div_le_lower_bound; lia|].
      apply Z.lt_succ_r, Z.div_lt_upper_bound; lia. }
    rewrite (vdv_hex_negative_nibble (stop_id / 16)) by lia. run_io.
    rewrite (vdv_hex_nibble_char (stop_id mod 16)) by lia. run_io.
    replace (stop_id + 256) with (stop_id + 16 * 16) by lia.
    rewrite Z.div_add, Z.mod_add by lia. reflexivity.
Qed.

Lemma DS010c_nibbles_witness :
  (DS010c 200 (Device [] [])
   = send_telegram
       (TStr (lit "xZ" ++ [Spec.nibble_char (200 / 16);
                           Spec.nibble_char (200 mod 16)])) 0 (Device [] []) /\
   200 = 16 * (200 / 16) + 200 mod 16 /\
   0 <= 200 / 16 <= 15 /\ 0 <= 200 mod 16 <= 15) /\
  DS010c 256 (Device [] []) = (Raise IndexError, Device [] []) /\
  DS010c (-1) (Device [] []) = DS010c (-1 + 256) (Device [] []).
Proof.
  split; [|split].
  - apply (proj1 (DS010c_nibbles 200 (Device [] []))). lia.
  - apply (proj1 (proj2 (DS010c_nibbles 256 (Device [] [])))). lia.
  - apply (proj1 (proj2 (proj2 (DS010c_nibbles (-1) (Device [] []))))). lia.
Defined.

(** X15. [DS010f] sends the stop id and then the length of the connection
    text, each as two VDV-hex characters, followed by the text itself
    without padding, for a stop id in 0..255 and a text of at most 255
    characters; a longer text raises [IndexError] and nothing is sent. *)
Theorem DS010f_length_prefix (stop_id : Z) (change_text : list N) (dev : device) :
  0 <= stop_id <= 255 ->
  let len := Z.of_nat (length change_text) in
  (len <= 255 ->
     DS010f stop_id change_text dev
     = send_telegram
         (TStr (lit "xU"
                ++ [Spec.nibble_char (stop_id / 16);
                    Spec.nibble_char (stop_id mod 16);
                    Spec.nibble_char (len / 16);
                    Spec.nibble_char (len mod 16)]
                ++ change_text)) 0 dev /\
     len = 16 * (len / 16) + len mod 16) /\
  (255 < len -> DS010f stop_id change_text dev = (Raise IndexError, dev)).
Proof.
  intros Hid len.
  pose proof (Z.div_mod len 16 ltac:(lia)) as Hdm.
  pose proof (Z.mod_pos_bound len 16 ltac:(lia)) as Hmod.
  pose proof (Z.mod_pos_bound stop_id 16 ltac:(lia)) as Hmod'.
  assert (0 <= stop_id / 16 <= 15) as Hhi.
  { split; [apply Z.div_pos; lia|].
    apply Z.lt_succ_r, Z.div_lt_upper_bound; lia. }
  assert (0 <= len) as Hlen by (unfold len; lia).
  split.
  - intros Hle. split; [|exact Hdm].
    unfold DS010f. rewrite !high_nibble_div, !low_nibble_mod. fold len.
    assert (0 <= len / 16 <= 15).
    { split; [apply Z.div_pos; lia|].
      apply Z.lt_succ_r, Z.div_lt_upper_bound; lia. }
    rewrite (vdv_hex_nibble_char (stop_id / 16)) by lia. run_io.
    rewrite (vdv_hex_nibble_char (stop_id mod 16)) by lia. run_io.
    rewrite (vdv_hex_nibble_char (len / 16)) by lia. run_io.
    rewrite (vdv_hex_nibble_char (len mod 16)) by lia. run_io.
    rewrite app_nil_r. reflexivity.
  - intros Hgt.
    unfold DS010f. rewrite !high_nibble_div, !low_nibble_mod. fold len.
    rewrite (vdv_hex_nibble_char (stop_id / 16)) by lia. run_io.
    rewrite (vdv_hex_nibble_char (stop_id mod 16)) by lia. run_io.
    rewrite (vdv_hex_index_error (len / 16)); [run_io; reflexivity|].
    left. apply Z.div_le_lower_bound; lia.
Qed.

Lemma DS010f_length_prefix_witness :
  (Z.of_nat (length (lit "U1 U2")) <= 255 ->
   DS010f 18 (lit "U1 U2") (Device [] [])
   = send_telegram
       (TStr (lit "xU"
              ++ [Spec.nibble_char (18 / 16);
                  Spec.nibble_char (18 mod 16);
                  Spec.nibble_char (Z.of_nat (length (lit "U1 U2")) / 16);
                  Spec.nibble_char (Z.of_nat (length (lit "U1 U2")) mod 16)]
              ++ lit "U1 U2")) 0 (Device [] []) /\
   Z.of_nat (length (lit "U1 U2"))
   = 16 * (Z.of_nat (length (lit "U1 U2")) / 16)
     + Z.of_nat (length (lit "U1 U2")) mod 16) /\
  (255 < Z.of_nat (length (lit "U1 U2")) ->
   DS010f 18 (lit "U1 U2") (Device [] []) = (Raise IndexError, Device [] [])).
Proof. apply (DS010f_length_prefix 18 (lit "U1 U2") (Device [] [])). lia. Defined.

(** *** Decimal fields *)

Lemma lit_String (c : ascii) (s : string) : lit (String c s) = N_of_ascii c :: lit s.
Proof. reflexivity. Qed.

Lemma digits_length (d : Decimal.uint) :
  length (lit (NilEmpty.string_of_uint d)) = Decimal.nb_digits d.
Proof.
  induction d; cbn [NilEmpty.string_of_uint Decimal.nb_digits];
    rewrite ?lit_String; cbn [length]; [reflexivity|congruence..].
Qed.

Lemma int_digits_digit (acc : Z) (b : bool) (c : N) (s : list N) :
  (48 <= c <= 57)%N ->
  int_digits acc b (c :: s) = int_digits (acc * 10 + (Z.of_N c - 48)) true s.
Proof.
  intros Hc. cbn [int_digits].
  destruct (N.leb_spec 48 c); [|lia]. destruct (N.leb_spec c 57); [|lia].
  reflexivity.
Qed.

Lemma int_digits_acc (d : Decimal.uint) (acc : positive) :
  int_digits (Z.pos acc) true (lit (NilEmpty.string_of_uint d))
  = Ok (Z.pos (Pos.of_uint_acc d acc)).
Proof.
  revert acc. induction d; intros acc; [reflexivity|..];
    cbn [NilEmpty.string_of_uint Pos.of_uint_acc]; rewrite lit_String;
    (rewrite int_digits_digit by (vm_compute; split; discriminate));
    match goal with
    | |- int_digits ?z true _ = _ =>
        match type of (IHd 1%positive) with _ => idtac end;
        let p := fresh "p" in
        evar (p : positive);
        replace z with (Z.pos p); subst p; [apply IHd|]
    end.
  all: match goal with |- context [N_of_ascii ?c] => let v := eval vm_compute in (N_of_ascii c) in change (N_of_ascii c) with v end; lia.
Qed.

Lemma int_digits_zero (d : Decimal.uint) :
  int_digits 0 true (lit (NilEmpty.string_of_uint d)) = Ok (Z.of_N (Pos.of_uint d)).
Proof.
  induction d; [reflexivity|..];
    cbn [NilEmpty.string_of_uint Pos.of_uint]; rewrite lit_String;
    (rewrite int_digits_digit by (vm_compute; split; discriminate));
    match goal with
    | |- context [N_of_ascii ?c] =>
        let v := eval vm_compute in (N_of_ascii c) in change (N_of_ascii c) with v
    end;
    [exact IHd|..];
    match goal with
    | |- int_digits ?z true _ = Ok (Z.of_N (N.pos (Pos.of_uint_acc _ ?p))) =>
        change z with (Z.pos p); apply int_digits_acc
    end.
Qed.

Lemma int_digits_start (b : bool) (d : Decimal.uint) :
  d <> Decimal.Nil ->
  int_digits 0 b (lit (NilEmpty.string_of_uint d))
  = int_digits 0 true (lit (NilEmpty.string_of_uint d)).
Proof.
  intros Hd. destruct d; [contradiction|..];
    cbn [NilEmpty.string_of_uint]; rewrite lit_String;
    rewrite !int_digits_digit by (vm_compute; split; discriminate); reflexivity.
Qed.

Lemma int_digits_of_digits (b : bool) (n : N) :
  int_digits 0 b (digits n) = Ok (Z.of_N n).
Proof.
  unfold digits. rewrite int_digits_start.
  - rewrite int_digits_zero. change (Pos.of_uint (N.to_uint n)) with (N.of_uint (N.to_uint n)).
    rewrite DecimalN.Unsigned.of_to. reflexivity.
  - destruct n; [discriminate|]. apply DecimalPos.Unsigned.to_uint_nonnil.
Qed.

Lemma of_uint_acc_bounds (d : Decimal.uint) (acc : positive) :
  Z.pos acc * 10 ^ Z.of_nat (Decimal.nb_digits d)
  <= Z.pos (Pos.of_uint_acc d acc)
  < (Z.pos acc + 1) * 10 ^ Z.of_nat (Decimal.nb_digits d).
Proof.
  revert acc. induction d; intros acc;
    cbn [Decimal.nb_digits Pos.of_uint_acc]; [simpl; lia|..];
    rewrite Nat2Z.inj_succ, Z.pow_succ_r by lia;
    match goal with
    | |- context [Pos.of_uint_acc d ?a] => specialize (IHd a)
    end;
    assert (0 < 10 ^ Z.of_nat (Decimal.nb_digits d)) by (apply Z.pow_pos_nonneg; lia);
    nia.
Qed.

Lemma of_uint_upper (d : Decimal.uint) :
  Z.of_N (Pos.of_uint d) < 10 ^ Z.of_nat (Decimal.nb_digits d).
Proof.
  induction d; cbn [Decimal.nb_digits Pos.of_uint]; [simpl; lia|..];
    rewrite Nat2Z.inj_succ, Z.pow_succ_r by lia;
    assert (0 < 10 ^ Z.of_nat (Decimal.nb_digits d)) by (apply Z.pow_pos_nonneg; lia);
    [lia|..];
    match goal with
    | |- context [Pos.of_uint_acc d ?a] => pose proof (of_uint_acc_bounds d a)
    end; nia.
Qed.

Lemma of_uint_lower (d : Decimal.uint) :
  d <> Decimal.Nil -> (forall d', d <> Decimal.D0 d') ->
  10 ^ (Z.of_nat (Decimal.nb_digits d) - 1) <= Z.of_N (Pos.of_uint d).
Proof.
  intros Hnil Hd0. destruct d; [contradiction|exfalso; eapply Hd0; reflexivity|..];
    cbn [Decimal.nb_digits Pos.of_uint];
    rewrite Nat2Z.inj_succ; replace (Z.succ (Z.of_nat (Decimal.nb_digits d)) - 1) with (Z.of_nat (Decimal.nb_digits d)) by lia;
    assert (0 < 10 ^ Z.of_nat (Decimal.nb_digits d)) by (apply Z.pow_pos_nonneg; lia);
    match goal with
    | |- context [Pos.of_uint_acc d ?a] => pose proof (of_uint_acc_bounds d a)
    end; nia.
Qed.

Lemma to_uint_head (p : positive) (d' : Decimal.uint) :
  Pos.to_uint p <> Decimal.D0 d'.
Proof.
  intros Hd.
  pose proof (DecimalPos.Unsigned.to_of (Pos.to_uint p)) as Hnorm.
  rewrite DecimalPos.Unsigned.of_to in Hnorm. cbn [N.to_uint] in Hnorm.
  rewrite Hd, DecimalFacts.unorm_D0 in Hnorm.
  destruct (Decimal.nzhead d') eqn:Hnz;
    [|exfalso; eapply DecimalFacts.nzhead_nonzero; exact Hnz
     |unfold Decimal.unorm in Hnorm; rewrite Hnz in Hnorm; discriminate Hnorm..].
  assert (Decimal.unorm d' = Decimal.zero) as Hz
    by (apply DecimalFacts.unorm_0; exact Hnz).
  rewrite Hz in Hnorm. rewrite <- Hd in Hnorm.
  exact (DecimalPos.Unsigned.to_uint_nonzero p Hnorm).
Qed.

Lemma digits_bounds (n : N) :
  let k := Z.of_nat (length (digits n)) in
  1 <= k /\ Z.of_N n < 10 ^ k /\ (0 < Z.of_N n -> 10 ^ (k - 1) <= Z.of_N n).
Proof.
  unfold digits. rewrite digits_length.
  destruct n as [|p]; [cbn; lia|].
  cbn [N.to_uint].
  pose proof (of_uint_upper (Pos.to_uint p)) as Hup.
  pose proof (of_uint_lower (Pos.to_uint p)
                (DecimalPos.Unsigned.to_uint_nonnil p) (to_uint_head p)) as Hlo.
  rewrite DecimalPos.Unsigned.of_to in Hup, Hlo.
  pose proof (DecimalPos.Unsigned.to_uint_nonnil p) as Hnil.
  assert (Decimal.nb_digits (Pos.to_uint p) <> 0%nat) as Hnb
    by (intros H0; apply Hnil, DecimalFacts.nb_digits_0, H0).
  cbv zeta. split; [lia|]. split; [exact Hup|]. intros _. exact Hlo.
Qed.

Lemma digits_length_le (n : N) (w : Z) :
  1 <= w -> (Z.of_nat (length (digits n)) <= w <-> Z.of_N n < 10 ^ w).
Proof.
  intros Hw. destruct (digits_bounds n) as (Hk & Hup & Hlo).
  set (k := Z.of_nat (length (digits n))) in *.
  split.
  - intros Hle. eapply Z.lt_le_trans; [exact Hup|].
    apply Z.pow_le_mono_r; lia.
  - intros Hlt. destruct (Z.eq_dec (Z.of_N n) 0) as [H0|H0].
    + assert (n = 0%N) as -> by lia. subst k. cbn. lia.
    + specialize (Hlo ltac:(lia)).
      destruct (Z_le_gt_dec k w) as [|Hgt]; [assumption|exfalso].
      assert (10 ^ w <= 10 ^ (k - 1)) by (apply Z.pow_le_mono_r; lia).
      lia.
Qed.


Lemma digits_are_digits (n : N) :
  Forall (fun c => (48 <= c <= 57)%N) (digits n).
Proof.
  unfold digits. induction (N.to_uint n);
    cbn [NilEmpty.string_of_uint]; [constructor|..];
    rewrite lit_String; (constructor; [vm_compute; split; discriminate|assumption]).
Qed.

Lemma digit_not_space (c : N) : (48 <= c <= 57)%N -> isspace c = false.
Proof.
  intros Hc. unfold isspace.
  repeat match goal with
         | |- context [N.leb ?a ?b] => destruct (N.leb_spec a b); [try lia|]
         | |- context [N.eqb ?a ?b] => destruct (N.eqb_spec a b); [try lia|]
         end; try reflexivity; lia.
Qed.

Lemma lstrip_id (s : list N) :
  Forall (fun c => isspace c = false) s -> lstrip s = s.
Proof. intros [|c s' Hc _]; [reflexivity|]. simpl. rewrite Hc. reflexivity. Qed.

Lemma strip_id (s : list N) :
  Forall (fun c => isspace c = false) s -> strip s = s.
Proof.
  intros Hs. unfold strip. rewrite (lstrip_id s Hs).
  rewrite lstrip_id by (apply Forall_reverse; exact Hs).
  apply reverse_involutive.
Qed.

Lemma int_digits_zeros (k : nat) (b : bool) (s : list N) :
  int_digits 0 b (replicate k 48%N ++ s) = int_digits 0 (b || (0 <? k)%nat) s.
Proof.
  revert b. induction k as [|k IH]; intros b.
  - simpl. rewrite orb_false_r. reflexivity.
  - cbn [replicate app]. rewrite int_digits_digit by lia.
    change (0 * 10 + (Z.of_N 48 - 48)) with 0. rewrite IH.
    rewrite orb_true_r. reflexivity.
Qed.

Lemma filter_digits_id (s : list N) :
  Forall (fun c => (48 <= c <= 57)%N) s -> List.filter is_digit s = s.
Proof.
  induction 1 as [|c s Hc _ IH]; [reflexivity|].
  cbn [List.filter]. unfold is_digit at 1.
  destruct (N.leb_spec 48 c); [|lia]. destruct (N.leb_spec c 57); [|lia].
  cbn [andb]. rewrite IH. reflexivity.
Qed.

Lemma filter_digits_length (s : list N) :
  (length (List.filter is_digit s) <= length s)%nat.
Proof.
  induction s as [|c s IH]; [reflexivity|].
  cbn [List.filter]. destruct (is_digit c); cbn [length]; lia.
Qed.

Lemma int_literal_within_limit (s : list N) :
  (length (List.filter is_digit s) <= 4300)%nat ->
  int_literal s = int_digits 0 false s.
Proof.
  intros Hlen. unfold int_literal, int_max_str_digits.
  destruct (Nat.ltb_spec 4300 (length (List.filter is_digit s))); [lia|].
  reflexivity.
Qed.

Lemma int_of_digit_string (s : list N) :
  s <> [] -> Forall (fun c => (48 <= c <= 57)%N) s ->
  (length s <= 4300)%nat ->
  int s = int_digits 0 false s.
Proof.
  intros Hne Hs Hlen.
  rewrite <- int_literal_within_limit
    by (rewrite (filter_digits_id s Hs); exact Hlen).
  unfold int.
  rewrite strip_id
    by (eapply Forall_impl; [exact Hs|]; intros c Hc; apply digit_not_space, Hc).
  destruct Hs as [|c s Hc Hs]; [contradiction|].
  assert (c = 48 \/ c = 49 \/ c = 50 \/ c = 51 \/ c = 52 \/ c = 53 \/ c = 54
          \/ c = 55 \/ c = 56 \/ c = 57)%N as Hcases by lia.
  repeat (destruct Hcases as [->|Hcases]; [reflexivity|]). subst c. reflexivity.
Qed.

Lemma format_ZeroD_int (w n : Z) (s : list N) :
  format_field (ZeroD w) (VInt n) = Ok s ->
  (length (List.filter is_digit s) <= 4300)%nat ->
  int s = Ok n.
Proof.
  cbn [format_field]. intros [= <-].
  pose proof (digits_are_digits (Z.abs_N n)) as Hds.
  destruct (digits_bounds (Z.abs_N n)) as (Hk & _ & _).
  assert (digits (Z.abs_N n) <> []) as Hne
    by (intros H0; rewrite H0 in Hk; simpl in Hk; lia).
  assert (forall k : nat,
            Forall (fun c => (48 <= c <= 57)%N)
                   (replicate k 48%N ++ digits (Z.abs_N n))) as Hall.
  { intros k. apply Forall_app. split; [|exact Hds].
    apply Forall_replicate. lia. }
  destruct (Z.ltb_spec n 0) as [Hneg|Hpos].
  - change (lit "-") with [45%N]. cbn [app length].
    change (List.filter is_digit (45%N :: ?l)) with (List.filter is_digit l).
    rewrite (filter_digits_id _ (Hall _)). intros Hlen.
    unfold int. rewrite strip_id.
    + rewrite int_literal_within_limit
        by (rewrite (filter_digits_id _ (Hall _)); exact Hlen).
      rewrite int_digits_zeros, int_digits_of_digits. cbn. f_equal. lia.
    + constructor; [reflexivity|].
      eapply Forall_impl; [apply Hall|]. intros c Hc. apply digit_not_space, Hc.
  - cbn [app length]. rewrite (filter_digits_id _ (Hall _)). intros Hlen.
    rewrite int_of_digit_string.
    + rewrite int_digits_zeros, int_digits_of_digits. f_equal. lia.
    + intros H0. apply app_eq_nil in H0 as [_ H0]. contradiction.
    + apply Hall.
    + exact Hlen.
Qed.

Lemma format_ZeroD_digit_count (w n : Z) (s : list N) :
  format_field (ZeroD w) (VInt n) = Ok s ->
  w <= 4300 -> Z.abs n < 10 ^ 4300 ->
  (length (List.filter is_digit s) <= 4300)%nat.
Proof.
  cbn [format_field]. intros [= <-] Hw Hn.
  pose proof (digits_are_digits (Z.abs_N n)) as Hds.
  pose proof (proj2 (digits_length_le (Z.abs_N n) 4300 ltac:(lia))) as Hle.
  rewrite N2Z.inj_abs_N in Hle. specialize (Hle Hn).
  assert (forall k : nat,
            Forall (fun c => (48 <= c <= 57)%N)
                   (replicate k 48%N ++ digits (Z.abs_N n))) as Hall.
  { intros k. apply Forall_app. split; [|exact Hds].
    apply Forall_replicate. lia. }
  destruct (Z.ltb_spec n 0) as [Hneg|Hpos].
  - change (lit "-") with [45%N]. cbn [app length].
    change (List.filter is_digit (45%N :: ?l)) with (List.filter is_digit l).
    rewrite (filter_digits_id _ (Hall _)), length_app, length_replicate. lia.
  - cbn [app length].
    rewrite (filter_digits_id _ (Hall _)), length_app, length_replicate. lia.
Qed.

Lemma format_ZeroD_length (w n : Z) (s : list N) :
  1 <= w -> 0 <= n ->
  format_field (ZeroD w) (VInt n) = Ok s ->
  w <= Z.of_nat (length s) /\ (Z.of_nat (length s) = w <-> n < 10 ^ w).
Proof.
  intros Hw Hn. cbn [format_field].
  destruct (Z.ltb_spec n 0) as [|_]; [lia|].
  intros [= <-]. cbn [app length].
  rewrite length_app, length_replicate.
  pose proof (digits_length_le (Z.abs_N n) w Hw) as Hle.
  rewrite N2Z.inj_abs_N, Z.abs_eq in Hle by lia.
  split; [lia|]. rewrite <- Hle. lia.
Qed.

(** *** The simple telegrams *)

Lemma _tg_numeric (p : string) (w n : Z) (dev : device) :
  1 <= w <= 4300 ->
  Z.abs n < 10 ^ 4300 ->
  exists ds : list N,
    _tg [Text p; Field (ZeroD w)] 0 [VInt n] dev
    = send_telegram (TStr (lit p ++ ds)) 0 dev /\
    int ds = Ok n /\
    (0 <= n ->
       w <= Z.of_nat (length ds) /\ (Z.of_nat (length ds) = w <-> n < 10 ^ w)).
Proof.
  intros Hw Hn.
  destruct (format_field (ZeroD w) (VInt n)) as [ds|] eqn:Hf;
    [|discriminate Hf].
  exists ds. split; [|split].
  - unfold _tg. cbn [format]. rewrite Hf. run_io.
    rewrite app_nil_r. reflexivity.
  - apply (format_ZeroD_int w n ds Hf).
    apply (format_ZeroD_digit_count w n ds Hf); [lia|exact Hn].
  - intros Hn0. apply (format_ZeroD_length w n ds ltac:(lia) Hn0 Hf).
Qed.

(** X16. Every simple telegram with a single zero-padded decimal field
    sends, for a number of at most 4300 digits, its command prefix followed
    by digits that read back, with [int], as the number given (a minus sign
    first when it is negative).  For a number that is not negative the field
    has at least the nominal width, and exactly that width if and only if
    the number is below [10 ^ width]: a larger number is not truncated but
    widens the telegram. *)
Theorem numeric_telegram_round_trip
    (tg : list value -> io (option (list N))) (p : string) (w : Z) :
  In (tg, p, w) numeric_telegrams ->
  forall (n : Z) (dev : device),
  Z.abs n < 10 ^ 4300 ->
  exists ds : list N,
    tg [VInt n] dev = send_telegram (TStr (lit p ++ ds)) 0 dev /\
    int ds = Ok n /\
    (0 <= n ->
       w <= Z.of_nat (length ds) /\ (Z.of_nat (length ds) = w <-> n < 10 ^ w)).
Proof.
  intros Hin n dev Hn. unfold numeric_telegrams in Hin. cbn [In] in Hin.
  repeat (destruct Hin as [[= <- <- <-]|Hin];
          [apply _tg_numeric; [lia|exact Hn]|]).
  contradiction.
Qed.

Lemma numeric_telegram_round_trip_witness :
  exists ds : list N,
    DS001 [VInt 12] (Device [] [])
    = send_telegram (TStr (lit "l" ++ ds)) 0 (Device [] []) /\
    int ds = Ok 12 /\
    (0 <= 12 ->
       3 <= Z.of_nat (length ds) /\ (Z.of_nat (length ds) = 3 <-> 12 < 10 ^ 3)).
Proof.
  apply (numeric_telegram_round_trip DS001 "l" 3).
  - unfold numeric_telegrams. simpl. left. reflexivity.
  - apply Z.ltb_lt. vm_compute. reflexivity.
Defined.

(** X17. Each of the 22 simple telegrams whose only field is a zero-padded
    decimal rejects what it cannot format before anything is sent: without
    an argument it raises [IndexError], with a [str] argument [ValueError],
    and the device is untouched; arguments beyond the first are ignored.
    [DS010e], whose decimal field follows a sign field, raises [IndexError]
    without arguments or with a [str] sign alone, and [ValueError] when its
    second argument is a [str], again with the device untouched. *)
Theorem numeric_telegram_rejects
    (tg : list value -> io (option (list N))) (p : string) (w : Z) :
  In (tg, p, w) numeric_telegrams ->
  forall dev : device,
    tg [] dev = (Raise IndexError, dev) /\
    (forall s : list N, tg [VStr s] dev = (Raise ValueError, dev)) /\
    (forall (n : Z) (more : list value), tg (VInt n :: more) dev = tg [VInt n] dev) /\
    DS010e [] dev = (Raise IndexError, dev) /\
    (forall sign : list N, DS010e [VStr sign] dev = (Raise IndexError, dev)) /\
    (forall (sign : value) (s : list N),
       DS010e [sign; VStr s] dev = (Raise ValueError, dev)).
Proof.
  intros Hin dev.
  assert (DS010e [] dev = (Raise IndexError, dev) /\
          (forall sign : list N, DS010e [VStr sign] dev = (Raise IndexError, dev)) /\
          (forall (sign : value) (s : list N),
             DS010e [sign; VStr s] dev = (Raise ValueError, dev))) as HDS010e.
  { split; [reflexivity|]. split; [intros sign; reflexivity|].
    intros sign s. unfold DS010e, _tg. cbn [format format_field].
    run_io. reflexivity. }
  unfold numeric_telegrams in Hin. cbn [In] in Hin.
  repeat (destruct Hin as [[= <- <- <-]|Hin];
          [split; [reflexivity|split; [reflexivity|split; [|exact HDS010e]]];
           intros n more; reflexivity|]).
  contradiction.
Qed.

Lemma numeric_telegram_rejects_witness :
  DS005 [] (Device [] []) = (Raise IndexError, Device [] []) /\
  (forall s : list N, DS005 [VStr s] (Device [] []) = (Raise ValueError, Device [] [])) /\
  (forall (n : Z) (more : list value),
     DS005 (VInt n :: more) (Device [] []) = DS005 [VInt n] (Device [] [])) /\
  DS010e [] (Device [] []) = (Raise IndexError, Device [] []) /\
  (forall sign : list N,
     DS010e [VStr sign] (Device [] []) = (Raise IndexError, Device [] [])) /\
  (forall (sign : value) (s : list N),
     DS010e [sign; VStr s] (Device [] []) = (Raise ValueError, Device [] [])).
Proof.
  apply (numeric_telegram_rejects DS005 "u" 4).
  unfold numeric_telegrams. simpl. do 15 right. left. reflexivity.
Defined.

Lemma _tg_text (p : string) (fill : N) (left : bool) (w : Z) (text : list N)
    (dev : device) :
  let pad := replicate (Z.to_nat w - length text) fill in
  _tg [Text p; Field (if left then FillLeft fill w else FillRight fill w)] 0
      [VStr text] dev
  = send_telegram
      (TStr (lit p ++ (if left then text ++ pad else pad ++ text))) 0 dev.
Proof.
  intros pad. unfold _tg. destruct left; cbn [format]; run_io;
    rewrite app_nil_r; reflexivity.
Qed.

(** X18. A simple telegram with a fixed-width text field pads a short text
    with its fill character, spaces on the right for the next-stop texts and
    zeros on the left for the alphanumeric line numbers, up to the field
    width; a text longer than the field is sent whole, never truncated. *)
Theorem text_telegram_pads_never_truncates
    (tg : list value -> io (option (list N))) (p : string) (fill : N)
    (left : bool) (w : Z) :
  In (tg, p, fill, left, w) text_telegrams ->
  forall (text : list N) (dev : device),
  exists field : list N,
    tg [VStr text] dev = send_telegram (TStr (lit p ++ field)) 0 dev /\
    Z.of_nat (length field) = Z.max w (Z.of_nat (length text)) /\
    (Z.of_nat (length text) <= w ->
       field = if left
               then text ++ replicate (Z.to_nat w - length text) fill
               else replicate (Z.to_nat w - length text) fill ++ text) /\
    (w <= Z.of_nat (length text) -> field = text).
Proof.
  intros Hin text dev.
  exists (if left
          then text ++ replicate (Z.to_nat w - length text) fill
          else replicate (Z.to_nat w - length text) fill ++ text).
  split; [|split; [|split; [reflexivity|]]].
  - unfold text_telegrams in Hin. cbn [In] in Hin.
    repeat (destruct Hin as [[= <- <- <- <- <-]|Hin];
            [match goal with
             | |- context [FillLeft ?f ?w] =>
                 apply (_tg_text _ f true w text dev)
             | |- context [FillRight ?f ?w] =>
                 apply (_tg_text _ f false w text dev)
             | |- ?tg _ _ = send_telegram (TStr (lit ?p ++ (?t ++ replicate (Z.to_nat ?w - _) ?f))) _ _ =>
                 apply (_tg_text p f true w text dev)
             | |- ?tg _ _ = send_telegram (TStr (lit ?p ++ (replicate (Z.to_nat ?w - _) ?f ++ ?t))) _ _ =>
                 apply (_tg_text p f false w text dev)
             end|]).
    contradiction.
  - destruct left; rewrite length_app, length_replicate; lia.
  - intros Hle.
    replace (Z.to_nat w - length text)%nat with 0%nat by lia.
    destruct left; cbn [replicate]; [apply app_nil_r|reflexivity].
Qed.

Lemma text_telegram_pads_never_truncates_witness :
  exists field : list N,
    DS009a [VStr (lit "Hauptbahnhof")] (Device [] [])
    = send_telegram (TStr (lit "v" ++ field)) 0 (Device [] []) /\
    Z.of_nat (length field) = Z.max 20 (Z.of_nat (length (lit "Hauptbahnhof"))) /\
    (Z.of_nat (length (lit "Hauptbahnhof")) <= 20 ->
       field = lit "Hauptbahnhof"
               ++ replicate (Z.to_nat 20 - length (lit "Hauptbahnhof")) 32%N) /\
    (20 <= Z.of_nat (length (lit "Hauptbahnhof")) -> field = lit "Hauptbahnhof").
Proof.
  apply (text_telegram_pads_never_truncates DS009a "v" 32%N true 20).
  unfold text_telegrams. simpl. right. left. reflexivity.
Defined.

(** *** The integer version decoder *)

(** X19. [parse_DS1601] inverts zero-padded decimal formatting: for a reply
    whose version field, after the first two characters, is an integer
    formatted with a zero-padded width, in at most 4300 characters, it
    returns that integer.  A reply of one or two characters has an empty
    version field and raises [ValueError]. *)
Theorem parse_DS1601_reads_decimal (a b : N) (w n : Z) (s : list N) :
  format_field (ZeroD w) (VInt n) = Ok s ->
  (length s <= 4300)%nat ->
  parse_DS1601 (Some (a :: b :: s)) = Ok (Some {[ "version"%string := VInt n ]}) /\
  parse_DS1601 (Some [a]) = Raise ValueError /\
  parse_DS1601 (Some [a; b]) = Raise ValueError.
Proof.
  intros Hs Hlen. split; [|split; reflexivity].
  unfold parse_DS1601. change (drop 2 (a :: b :: s)) with s.
  rewrite (format_ZeroD_int w n s Hs).
  - reflexivity.
  - pose proof (filter_digits_length s). lia.
Qed.

Lemma parse_DS1601_reads_decimal_witness :
  parse_DS1601 (Some (111%N :: 86%N :: lit "0000000000000123"))
    = Ok (Some {[ "version"%string := VInt 123 ]}) /\
  parse_DS1601 (Some [111%N]) = Raise ValueError /\
  parse_DS1601 (Some [111%N; 86%N]) = Raise ValueError.
Proof.
  apply (parse_DS1601_reads_decimal 111%N 86%N 16 123 (lit "0000000000000123")).
  - reflexivity.
  - simpl. lia.
Defined.

(** *** The beacon id decoder, continued *)

Lemma parse_DS161_nibbles (a b : N) (cs : list N) (ds : list Z) (rest : list N) :
  length cs = 8%nat ->
  Forall2 (fun c d => vdv_hex (VStr [c]) = Ok (VInt d)) cs ds ->
  parse_DS161 (Some (a :: b :: cs ++ rest))
  = Ok (Some {[ "beacon_id"%string := VInt (Spec.beacon_of_nibbles ds) ]}).
Proof.
  intros Hlen Hcs.
  do 8 (destruct cs as [|? cs]; [discriminate Hlen|]).
  destruct cs; [clear Hlen|discriminate Hlen].
  do 8 (apply Forall2_cons_inv_l in Hcs as (? & ? & ? & Hcs & ->)).
  apply Forall2_nil_inv_l in Hcs as ->.
  unfold Spec.beacon_of_nibbles. cbn [imap foldr compose].
  unfold parse_DS161, for_range.
  cbn [drop seq for_seq app].
  repeat match goal with
         | |- context [getitem ?l (Z.of_nat ?n)] =>
             rewrite (getitem_nonneg l (Z.of_nat n) _ ltac:(lia) eq_refl)
         | H : vdv_hex ?v = _ |- context [vdv_hex ?v] => rewrite H; clear H
         | _ => progress cbn [mbind result_bind]
         end.
  do 3 f_equal. f_equal.
  cbn. rewrite Z.lor_0_r. rewrite !Z.lor_assoc. reflexivity.
Qed.

Lemma nibble_char_decodes (d : Z) :
  0 <= d <= 15 -> vdv_hex (VStr [Spec.nibble_char d]) = Ok (VInt d).
Proof.
  intros Hd.
  assert (exists k : nat, (k < 16)%nat /\ d = Z.of_nat k) as (k & Hk & ->)
    by (exists (Z.to_nat d); lia).
  do 16 (destruct k as [|k]; [reflexivity|]). lia.
Qed.

Lemma nibble_mask (id k : Z) :
  0 <= k ->
  Z.shiftl (Z.land (Z.shiftr id k) 15) k = Z.land id (Z.shiftl 15 k).
Proof.
  intros Hk. apply Z.bits_inj'. intros n Hn.
  rewrite Z.shiftl_spec, !Z.land_spec, Z.shiftl_spec by lia.
  destruct (Z.ltb_spec n k).
  - rewrite !(Z.testbit_neg_r _ (n - k)) by lia. rewrite !andb_false_r. reflexivity.
  - rewrite Z.shiftr_spec by lia. replace (n - k + k) with n by lia. reflexivity.
Qed.

Lemma beacon_of_beacon_nibbles (id : Z) :
  0 <= id < 2 ^ 32 -> Spec.beacon_of_nibbles (beacon_nibbles id) = id.
Proof.
  intros Hid. unfold Spec.beacon_of_nibbles, beacon_nibbles.
  cbn [imap foldr compose].
  repeat match goal with
         | |- context [(7 - Z.of_nat ?i) * 4] =>
             let v := eval vm_compute in ((7 - Z.of_nat i) * 4) in
             change ((7 - Z.of_nat i) * 4) with v
         end.
  rewrite !nibble_mask by lia. rewrite Z.lor_0_r.
  rewrite <- !Z.land_lor_distr_r.
  change (Z.lor _ _) with (Z.ones 32).
  rewrite Z.land_ones by lia. apply Z.mod_small. exact Hid.
Qed.

(** X20. The beacon decoder inverts the nibble expansion: for every beacon
    id below [2 ^ 32], a reply that carries, after its two leading
    characters, the VDV-hex characters of the id's eight nibbles, most
    significant first, decodes to that id. *)
Theorem parse_DS161_round_trip (a b : N) (id : Z) (rest : list N) :
  0 <= id < 2 ^ 32 ->
  parse_DS161 (Some (a :: b :: (Spec.nibble_char <$> beacon_nibbles id) ++ rest))
  = Ok (Some {[ "beacon_id"%string := VInt id ]}).
Proof.
  intros Hid.
  rewrite (parse_DS161_nibbles a b _ (beacon_nibbles id) rest).
  - rewrite (beacon_of_beacon_nibbles id Hid). reflexivity.
  - reflexivity.
  - unfold beacon_nibbles. cbn [fmap list_fmap].
    repeat constructor; apply nibble_char_decodes;
      rewrite low_nibble_mod;
      match goal with
      | |- 0 <= ?x mod 16 <= 15 =>
          pose proof (Z.mod_pos_bound x 16 ltac:(lia)); lia
      end.
Qed.

Lemma parse_DS161_round_trip_witness :
  parse_DS161
    (Some (111%N :: 68%N
           :: (Spec.nibble_char <$> beacon_nibbles 3735928559) ++ []))
  = Ok (Some {[ "beacon_id"%string := VInt 3735928559 ]}).
Proof. apply (parse_DS161_round_trip 111%N 68%N 3735928559 []). lia. Defined.

(** Run the loop of [parse_DS161] on a reply whose leading characters are
    known. *)
Ltac run_beacon_loop :=
  unfold parse_DS161, for_range;
  cbn [drop seq for_seq app];
  repeat match goal with
         | |- context [getitem ?l (Z.of_nat ?n)] =>
             first
               [ rewrite (getitem_nonneg l (Z.of_nat n) _ ltac:(lia) eq_refl)
               | rewrite (getitem_out_of_range l (Z.of_nat n)) by (simpl; lia) ]
         | H : vdv_hex ?v = _ |- context [vdv_hex ?v] => rewrite H
         | _ => progress cbn [mbind result_bind]
         end.

(** X21. The beacon decoder fails on a malformed reply instead of
    returning a partial id: when fewer than eight VDV-hex characters follow
    the two leading characters it raises [IndexError], and when a character
    outside the alphabet comes before the eighth it raises [ValueError]. *)
Theorem parse_DS161_rejects (a b : N) (cs : list N) :
  Forall (fun c => c ∈ vdvhex) cs ->
  (length cs < 8)%nat ->
  parse_DS161 (Some (a :: b :: cs)) = Raise IndexError /\
  (forall (x : N) (rest : list N),
     x ∉ vdvhex ->
     parse_DS161 (Some (a :: b :: cs ++ x :: rest)) = Raise ValueError).
Proof.
  intros Hcs Hlen.
  assert (Forall (fun c => exists d, vdv_hex (VStr [c]) = Ok (VInt d)) cs) as Hdec.
  { eapply Forall_impl; [exact Hcs|]. intros c Hc.
    exact (vdv_hex_member_decodes c Hc). }
  clear Hcs.
  do 8 (destruct cs as [|? cs];
        [split;
         [run_beacon_loop; reflexivity
         |intros ? ? Hout; apply vdv_hex_decode_absent in Hout;
          run_beacon_loop; reflexivity]
        |apply Forall_cons in Hdec as [[? ?] Hdec]]).
  simpl in Hlen. lia.
Qed.

Lemma parse_DS161_rejects_witness :
  parse_DS161 (Some (111%N :: 68%N :: lit "0012")) = Raise IndexError /\
  (forall (x : N) (rest : list N),
     x ∉ vdvhex ->
     parse_DS161 (Some (111%N :: 68%N :: lit "0012" ++ x :: rest))
     = Raise ValueError).
Proof.
  apply (parse_DS161_rejects 111%N 68%N (lit "0012")).
  - apply (bool_decide_unpack _). vm_compute. exact I.
  - simpl. lia.
Defined.

(** *** Block texts on the wire *)

Lemma process_special_characters_length (s : list N) :
  length (process_special_characters s) = length s.
Proof. rewrite process_special_characters_pointwise. apply length_fmap. Qed.

Lemma block_text_length (blockSize : Z) (text : list N) :
  0 < blockSize ->
  Z.of_nat (length (Spec.block_text blockSize text))
  = 1 + blockSize * Spec.num_blocks blockSize text.
Proof.
  intros Hd.
  pose proof (ceil_div_spec (Z.of_nat (length text)) blockSize Hd) as Hc.
  rewrite (ceil_div_num_blocks _ _ Hd) in Hc.
  unfold Spec.block_text. rewrite !length_app, length_replicate.
  cbn [length]. lia.
Qed.

(** X22. Sanitizing keeps the length of a text, so the padding computed
    before it survives on the wire: for a text of at most 15 blocks the one
    telegram that [DS003a] writes has [5 + 16 * numBlocks] octets and that of
    [DS003c] [5 + 4 * numBlocks] (two for the command prefix, one for the
    block count, two for terminator and checksum). *)
Theorem block_text_wire_length (text : list N) (dev : device) :
  length (process_special_characters text) = length text /\
  (Spec.num_blocks 16 text <= 15 ->
     exists telegram : list byte,
       DS003a text dev
       = (Ok None,
          {| written := written dev ++ [telegram]; pending := pending dev |}) /\
       Z.of_nat (length telegram) = 5 + 16 * Spec.num_blocks 16 text) /\
  (Spec.num_blocks 4 text <= 15 ->
     exists telegram : list byte,
       DS003c text dev
       = (Ok None,
          {| written := written dev ++ [telegram]; pending := pending dev |}) /\
       Z.of_nat (length telegram) = 5 + 4 * Spec.num_blocks 4 text).
Proof.
  split; [apply process_special_characters_length|split].
  - intros Hle.
    destruct (block_text_fields 16 text ltac:(lia) Hle) as (h & Hv & Hb).
    unfold DS003a. rewrite Hv. run_io. rewrite app_nil_r, Hb.
    destruct (send_telegram_no_reply (lit "zA" ++ Spec.block_text 16 text) dev)
      as [c ->].
    eexists. split; [reflexivity|].
    rewrite length_app, process_special_characters_length, length_app.
    pose proof (block_text_length 16 text ltac:(lia)).
    change (length (lit "zA")) with 2%nat. cbn [length]. lia.
  - intros Hle.
    destruct (block_text_fields 4 text ltac:(lia) Hle) as (h & Hv & Hb).
    unfold DS003c. rewrite Hv. run_io. rewrite app_nil_r, Hb.
    destruct (send_telegram_no_reply (lit "zI" ++ Spec.block_text 4 text) dev)
      as [c ->].
    eexists. split; [reflexivity|].
    rewrite length_app, process_special_characters_length, length_app.
    pose proof (block_text_length 4 text ltac:(lia)).
    change (length (lit "zI")) with 2%nat. cbn [length]. lia.
Qed.

Lemma block_text_wire_length_witness :
  exists telegram : list byte,
    DS003a (lit "Hauptbahnhof Nord") (Device [] [])
    = (Ok None, {| written := [] ++ [telegram]; pending := [] |}) /\
    Z.of_nat (length telegram)
    = 5 + 16 * Spec.num_blocks 16 (lit "Hauptbahnhof Nord").
Proof.
  apply (proj1 (proj2 (block_text_wire_length (lit "Hauptbahnhof Nord")
                         (Device [] [])))).
  vm_compute. discriminate.
Defined.

(** *** The LSA radio telegram *)




